(** * A2A protocol JSON-RPC server: the dispatch core

    A shallow embedding of [src/a2a_protocol/server.py] (class [A2AServer])
    and the properties its specification states about request and
    notification dispatch, validation sequencing and error-code mapping.

    Python values are a small inductive type, exceptions are values of a
    record, and the methods of [A2AServer] are programs in a state-and-error
    monad whose state holds what the code can change: the world the
    registered handlers act on, the records handed to the module's [logger],
    and the tasks given to [asyncio.create_task]. *)

From Stdlib Require Import ZArith QArith_base Ascii String List Bool Lia.
From stdpp Require Import base option list strings pretty gmap.

Local Open Scope Z_scope.
Local Open Scope string_scope.
Set Warnings "-register-all,-clear-no-such-hyp".

(** ** Python values *)

(** The values that travel through the dispatcher ([Any] in the source):
    what [json.loads] can produce, and [PyObject] for every other object
    (a set, a class instance, ...), which [json.dumps] rejects.  Floats are
    left out: no code path of the dispatcher inspects a number. *)
Inductive pyval : Type :=
| PyNone
| PyBool (b : bool)
| PyInt (n : Z)
| PyStr (s : string)
| PyList (l : list pyval)
| PyDict (d : list (string * pyval))
| PyObject (type_name : string).

(** Instances of [Exception], which is what the [except Exception] clauses
    of the server catch: the class name and [str(e)].  [KeyboardInterrupt],
    [SystemExit] and task cancellation derive from [BaseException] and are
    outside the model. *)
Record exn : Type := Exn { exn_class : string; exn_str : string }.

(** The outcome of a Python call: a value, or a raised exception. *)
Inductive result (A : Type) : Type :=
| Ok (a : A)
| Raise (e : exn).
Arguments Ok {A} a.
Arguments Raise {A} e.

(** What [json.dumps] accepts. *)
Fixpoint json_serializable (v : pyval) : bool :=
  match v with
  | PyList l => forallb json_serializable l
  | PyDict d => forallb (fun '(_, x) => json_serializable x) d
  | PyObject _ => false
  | _ => true
  end.

(** The first object [json.dumps] cannot encode, in traversal order. *)
Fixpoint first_unserializable (v : pyval) : option string :=
  match v with
  | PyList l =>
      (fix go (l : list pyval) : option string :=
         match l with
         | [] => None
         | x :: l' =>
             match first_unserializable x with
             | Some t => Some t
             | None => go l'
             end
         end) l
  | PyDict d =>
      (fix go (d : list (string * pyval)) : option string :=
         match d with
         | [] => None
         | (_, x) :: d' =>
             match first_unserializable x with
             | Some t => Some t
             | None => go d'
             end
         end) d
  | PyObject t => Some t
  | _ => None
  end.

(** [json.dumps(data)].  The text is represented by the document it encodes;
    an object that is not serializable raises [TypeError]. *)
Definition json_dumps (data : pyval) : result pyval :=
  if json_serializable data then Ok data
  else Raise (Exn "TypeError"
                ("Object of type " +:+ default "object" (first_unserializable data)
                 +:+ " is not JSON serializable")).

(** ** JSON-RPC messages ([schemas.py]) *)

(** Modelled from the spec: the JSON-RPC 2.0 id of [schemas.py], absent
    ([None], serialized as null), an integer or a string. *)
Inductive rpc_id : Type :=
| IdNone
| IdInt (n : Z)
| IdStr (s : string).

Definition id_value (i : rpc_id) : pyval :=
  match i with
  | IdNone => PyNone
  | IdInt n => PyInt n
  | IdStr s => PyStr s
  end.

(** Modelled from the spec: the Request envelope of [schemas.py],
    {method, params, id}. *)
Record JSONRPCRequest : Type := mkRequest {
  req_method : string;
  req_params : pyval;
  req_id : rpc_id
}.

(** Modelled from the spec: the Notification envelope of [schemas.py],
    {method, params}, without an id. *)
Record JSONRPCNotification : Type := mkNotification {
  ntf_method : string;
  ntf_params : pyval
}.

(** Modelled from the spec: the error object of [schemas.py],
    {code, message, data, id}. *)
Record JSONRPCErrorResponse : Type := mkError {
  err_code : Z;
  err_message : string;
  err_data : pyval;
  err_id : rpc_id
}.

(** Modelled from the spec: the success object of [schemas.py],
    {result, id}. *)
Record JSONRPCSuccessResponse : Type := mkSuccess {
  res_result : pyval;
  res_id : rpc_id
}.

(** What [_handle_request] returns (its annotation is [Any]). *)
Inductive rpc_response : Type :=
| Success (r : JSONRPCSuccessResponse)
| Error (e : JSONRPCErrorResponse).

(** Modelled from the spec: [MessageValidator._create_error_response] of
    [validation.py], the spec's buildErrorObject(code, message, data, id). *)
Definition _create_error_response
    (code : Z) (message : string) (data : pyval) (id : rpc_id)
  : JSONRPCErrorResponse :=
  mkError code message data id.

(** Modelled from the spec: [MessageValidator.create_success_response] of
    [validation.py], the spec's buildSuccessObject(result, id). *)
Definition create_success_response (result : pyval) (id : rpc_id)
  : JSONRPCSuccessResponse :=
  mkSuccess result id.

(** Modelled from the spec: [.dict()] of the two response models, in the
    wire format {jsonrpc: "2.0", error: {code, message, data}, id} and
    {jsonrpc: "2.0", result, id}. *)
Definition error_dict (e : JSONRPCErrorResponse) : pyval :=
  PyDict [("jsonrpc", PyStr "2.0");
          ("error", PyDict [("code", PyInt (err_code e));
                            ("message", PyStr (err_message e));
                            ("data", err_data e)]);
          ("id", id_value (err_id e))].

Definition success_dict (r : JSONRPCSuccessResponse) : pyval :=
  PyDict [("jsonrpc", PyStr "2.0");
          ("result", res_result r);
          ("id", id_value (res_id r))].

Definition response_dict (r : rpc_response) : pyval :=
  match r with
  | Success s => success_dict s
  | Error e => error_dict e
  end.

(** The [id] attribute of either response object. *)
Definition response_id (r : rpc_response) : rpc_id :=
  match r with
  | Success s => res_id s
  | Error e => err_id e
  end.

(** What [MessageValidator.validate_jsonrpc_message] can return: one of the
    three envelope variants the dispatcher tests with [isinstance], or any
    other object. *)
Inductive parsed_message : Type :=
| ParsedError (e : JSONRPCErrorResponse)
| ParsedNotification (n : JSONRPCNotification)
| ParsedRequest (r : JSONRPCRequest)
| ParsedOther (v : pyval).

(** ** HTTP ([aiohttp.web]) *)

(** The inbound request: all the dispatcher does with it is
    [await request.text()], which yields the body or raises (a body that
    does not decode). *)
Record Request : Type := mkHttpRequest { request_text : result string }.

(** [aiohttp.web.Response]: the fields the dispatcher sets.  [text] holds
    the document [json.dumps] rendered. *)
Record Response : Type := mkResponse {
  status : Z;
  text : option pyval;
  content_type : option string;
  headers : list (string * string)
}.

(** [Response(status=204)]: the no-content sentinel. *)
Definition no_content : Response := mkResponse 204 None None [].

(** ** Logging *)

Inductive log_level : Type := DEBUG | INFO | WARNING | ERROR.

Record log_record : Type := mkLog { log_lvl : log_level; log_msg : string }.

(** ** The server *)

Section Dispatcher.

(** What the handlers act on (their side effects), and the validated
    domain message they receive.  [A2AMessage] instances are objects
    without [__bool__] or [__len__], hence truthy. *)
Context {World A2AMessage : Type}.

(** [MessageValidator] ([validation.py]): the three static methods the
    dispatcher calls.  Each may raise. *)
Variable validate_jsonrpc_message : string -> result parsed_message.
Variable validate_a2a_message : string -> pyval -> result (option A2AMessage).
Variable validate_business_rules : A2AMessage -> result bool.

(** The builtin [int] on a string; [None] stands for [ValueError]. *)
Variable py_int : string -> option Z.

(** A registered handler: an async callable that takes the domain message
    and returns a result or raises, acting on the world. *)
Definition handler : Type := A2AMessage -> World -> result pyval * World.

(** The state a call runs in.  [invoked] is a history of the handler
    calls made so far (method name and message), kept to state which
    runs reach a handler; no code reads it. *)
Record state : Type := mkState {
  world : World;
  log : list log_record;
  tasks : list JSONRPCNotification;
  invoked : list (string * A2AMessage)
}.

(** Programs: a state transformer that returns or raises.  What a program
    changed before it raised stays changed. *)
Definition M (A : Type) : Type := state -> result A * state.

Definition ret {A} (a : A) : M A := fun st => (Ok a, st).

Definition bind {A B} (m : M A) (k : A -> M B) : M B :=
  fun st =>
    match m st with
    | (Ok a, st') => k a st'
    | (Raise e, st') => (Raise e, st')
    end.

(** A call that does not touch the state. *)
Definition lift {A} (r : result A) : M A := fun st => (r, st).

(** [try: body / except Exception as e: on_error]. *)
Definition try_except {A} (body : M A) (on_error : exn -> M A) : M A :=
  fun st =>
    match body st with
    | (Ok a, st') => (Ok a, st')
    | (Raise e, st') => on_error e st'
    end.

Notation "'let*' x := m 'in' k" := (bind m (fun x => k))
  (at level 10, x name, m at level 100, k at level 200,
   format "'[v' 'let*'  x  :=  m  'in' '/' k ']'").
Notation "m >> k" := (bind m (fun _ => k))
  (at level 100, k at level 200, right associativity).

(** [logger.debug], [logger.warning], [logger.error]: one record each. *)
Definition logger (lvl : log_level) (msg : string) : M unit :=
  fun st =>
    (Ok tt, mkState (world st) (log st ++ [mkLog lvl msg]) (tasks st) (invoked st)).

(** [asyncio.create_task(self._handle_notification(notification))]: the
    coroutine is scheduled, not run; the caller goes on at once. *)
Definition create_task (n : JSONRPCNotification) : M unit :=
  fun st =>
    (Ok tt, mkState (world st) (log st) (tasks st ++ [n]) (invoked st)).

(** [await handler(a2a_message)]. *)
Definition await_handler (method : string) (h : handler) (m : A2AMessage) : M pyval :=
  fun st =>
    let '(r, w) := h m (world st) in
    (r, mkState w (log st) (tasks st) (invoked st ++ [(method, m)])).

(** [class A2AServer]: the attributes the dispatcher reads.  [routes] is
    what [_setup_routes] adds to [self.app.router]. *)
Record A2AServer : Type := mkServer {
  host : option string;
  port : option Z;
  routes : list (string * string * string);
  methods : gmap string handler
}.

(** [os.getenv(key, default)]. *)
Definition getenv (env : gmap string string) (key dflt : string) : string :=
  default dflt (env !! key).

(** [x or y] on an optional string and an optional int: [None], the empty
    string and 0 are falsy, and [y] is evaluated (and may raise) only
    then. *)
Definition str_or (x : option string) (y : string) : string :=
  match x with
  | Some s => if String.eqb s "" then y else s
  | None => y
  end.

Definition int_or (x : option Z) (y : result Z) : result Z :=
  match x with
  | Some p => if Z.eqb p 0 then y else Ok p
  | None => y
  end.

(** [int(s)]. *)
Definition int_of_str (s : string) : result Z :=
  match py_int s with
  | Some n => Ok n
  | None =>
      Raise (Exn "ValueError" ("invalid literal for int() with base 10: '" +:+ s +:+ "'"))
  end.

(** Attribute assignment on [self]. *)
Definition set_host (self : A2AServer) (h : option string) : A2AServer :=
  mkServer h (port self) (routes self) (methods self).
Definition set_port (self : A2AServer) (p : option Z) : A2AServer :=
  mkServer (host self) p (routes self) (methods self).
Definition set_methods (self : A2AServer) (m : gmap string handler) : A2AServer :=
  mkServer (host self) (port self) (routes self) m.

(** [_setup_routes()]. *)
Definition _setup_routes (self : A2AServer) : A2AServer :=
  mkServer (host self) (port self)
    (routes self ++ [("POST", "/jsonrpc", "_handle_jsonrpc");
                     ("GET", "/health", "_handle_health")])
    (methods self).

(** The object [__init__] receives: no attribute set yet. *)
Definition blank : A2AServer := mkServer None None [] ∅.

(** [A2AServer.__init__(host, port)] under the process environment
    [env]. *)
Definition __init__ (env : gmap string string)
    (host_arg : option string) (port_arg : option Z) : result A2AServer :=
  let self := set_host blank (Some (str_or host_arg (getenv env "A2A_HOST" "0.0.0.0"))) in
  match int_or port_arg (int_of_str (getenv env "A2A_PORT" "8080")) with
  | Raise e => Raise e
  | Ok p =>
      let self := set_port self (Some p) in
      let self := set_host self host_arg in
      let self := set_port self port_arg in
      let self := set_methods self ∅ in
      Ok (_setup_routes self)
  end.

(** [register_method(method_name, handler)]. *)
Definition register_method (self : A2AServer) (method_name : string) (h : handler)
  : M A2AServer :=
  let self := set_methods self (<[method_name := h]> (methods self)) in
  logger INFO ("Registered method: " +:+ method_name) >>
  ret self.

(** [_json_response(data)]. *)
Definition _json_response (data : pyval) : M Response :=
  let* body := lift (json_dumps data) in
  ret (mkResponse 200 (Some body) (Some "application/json")
         [("Access-Control-Allow-Origin", "*")]).

(** [_handle_request(rpc_request)], lines 68-103. *)
Definition _handle_request (self : A2AServer) (rpc_request : JSONRPCRequest)
  : M rpc_response :=
  let method := req_method rpc_request in
  let params := req_params rpc_request in
  let msg_id := req_id rpc_request in
  match methods self !! method with
  | None =>
      ret (Error (_create_error_response (-32601) "Method not found"
                    (PyStr ("Method '" +:+ method +:+ "' not found")) msg_id))
  | Some _ =>
      try_except
        (let* a2a_message := lift (validate_a2a_message method params) in
         match a2a_message with
         | None =>
             ret (Error (_create_error_response (-32602) "Invalid params"
                           (PyStr "Invalid A2A message parameters") msg_id))
         | Some a2a_message =>
             let* valid := lift (validate_business_rules a2a_message) in
             if negb valid then
               ret (Error (_create_error_response (-32602) "Invalid params"
                             (PyStr "Business rule validation failed") msg_id))
             else
               match methods self !! method with
               | None => lift (Raise (Exn "KeyError" ("'" +:+ method +:+ "'")))
               | Some handler =>
                   let* result := await_handler method handler a2a_message in
                   ret (Success (create_success_response result msg_id))
               end
         end)
        (fun e =>
           logger ERROR ("Error executing method " +:+ method +:+ ": " +:+ exn_str e) >>
           ret (Error (_create_error_response (-32603) "Internal error"
                         (PyStr (exn_str e)) msg_id)))
  end.

(** [_handle_notification(notification)], lines 105-122.  It returns
    nothing.  A domain message being truthy, [if a2a_message and ...] tests
    it against [None]. *)
Definition _handle_notification (self : A2AServer) (notification : JSONRPCNotification)
  : M unit :=
  let method := ntf_method notification in
  let params := ntf_params notification in
  match methods self !! method with
  | None => logger WARNING ("Notification for unknown method: " +:+ method)
  | Some _ =>
      try_except
        (let* a2a_message := lift (validate_a2a_message method params) in
         match a2a_message with
         | None => logger WARNING ("Invalid notification parameters for " +:+ method)
         | Some a2a_message =>
             let* valid := lift (validate_business_rules a2a_message) in
             if valid then
               match methods self !! method with
               | None => lift (Raise (Exn "KeyError" ("'" +:+ method +:+ "'")))
               | Some handler =>
                   await_handler method handler a2a_message >> ret tt
               end
             else logger WARNING ("Invalid notification parameters for " +:+ method)
         end)
        (fun e =>
           logger ERROR ("Error handling notification " +:+ method +:+ ": " +:+ exn_str e))
  end.

(** The [try] suite of [_handle_jsonrpc], lines 42-59.  When none of the
    three [isinstance] tests holds, control falls off the end of the
    function, which returns [None]. *)
Definition _handle_jsonrpc_try (self : A2AServer) (request : Request)
  : M (option Response) :=
  let* raw_data := lift (request_text request) in
  logger DEBUG ("Received raw message: " +:+ raw_data) >>
  let* parsed_message := lift (validate_jsonrpc_message raw_data) in
  match parsed_message with
  | ParsedError e =>
      let* r := _json_response (error_dict e) in
      ret (Some r)
  | ParsedNotification n =>
      create_task n >>
      ret (Some no_content)
  | ParsedRequest rq =>
      let* response := _handle_request self rq in
      let* r := _json_response (response_dict response) in
      ret (Some r)
  | ParsedOther _ => ret None
  end.

(** The [except Exception as e] suite of [_handle_jsonrpc], lines 61-66. *)
Definition _handle_jsonrpc_except (e : exn) : M (option Response) :=
  logger ERROR ("Error handling request: " +:+ exn_str e) >>
  let error_response :=
    _create_error_response (-32603) "Internal error" (PyStr (exn_str e)) IdNone in
  let* r := _json_response (error_dict error_response) in
  ret (Some r).

(** [_handle_jsonrpc(request)], lines 39-66: the transport-facing entry
    point. *)
Definition _handle_jsonrpc (self : A2AServer) (request : Request)
  : M (option Response) :=
  try_except (_handle_jsonrpc_try self request) _handle_jsonrpc_except.

(** [_handle_health(request)], lines 124-126.  A [gmap] does not keep the
    insertion order of a Python dict: the names come in the order of the
    map, and statements about the listing are up to order. *)
Definition _handle_health (self : A2AServer) : M Response :=
  _json_response
    (PyDict [("status", PyStr "healthy");
             ("methods", PyList (map PyStr (map fst (map_to_list (methods self)))))]).

(** *** States and responses the statements name *)

(** The HTTP response [_json_response] builds around a document. *)
Definition json_http (doc : pyval) : Response :=
  mkResponse 200 (Some doc) (Some "application/json")
    [("Access-Control-Allow-Origin", "*")].

(** [st] after one more log record, and after a handler call. *)
Definition logged (st : state) (lvl : log_level) (msg : string) : state :=
  mkState (world st) (log st ++ [mkLog lvl msg]) (tasks st) (invoked st).

Definition called (st : state) (method : string) (m : A2AMessage) (w : World) : state :=
  mkState w (log st) (tasks st) (invoked st ++ [(method, m)]).

Definition scheduled (st : state) (n : JSONRPCNotification) : state :=
  mkState (world st) (log st) (tasks st ++ [n]) (invoked st).

(** [st] after any run: a new world, and more records, tasks and calls. *)
Definition extend (st : state) (w : World) (l : list log_record)
    (t : list JSONRPCNotification) (c : list (string * A2AMessage)) : state :=
  mkState w (log st ++ l) (tasks st ++ t) (invoked st ++ c).

(** *** Observing a run *)

(** What a run that started in [st] shows of the dispatch decision: either
    it reached a handler invocation, or it ended without one, with this
    outcome and these new log records. *)
Inductive classification (A : Type) : Type :=
| ReachedInvocation
| Classified (outcome : result A) (logged : list log_record).

Definition classify {A} (st : state) (run : result A * state) : classification A :=
  if Nat.eqb (length (invoked run.2)) (length (invoked st))
  then Classified A run.1 (drop (length (log st)) (log run.2))
  else ReachedInvocation A.

End Dispatcher.

Arguments ReachedInvocation {A}.
Arguments Classified {A} outcome logged.

(** ** A small instance

    A registry in the shape of the specification's scenarios and of the
    module's own example: handlers over a counter of handled messages, and a
    validator given by a table. *)
Module Toy.

(** The handled-message counter. *)
Definition World : Type := nat.
(** The validated params. *)
Definition A2AMessage : Type := pyval.

Definition ping_request : JSONRPCRequest := mkRequest "PING" (PyDict []) (IdInt 1).
Definition unknown_request : JSONRPCRequest := mkRequest "UNKNOWN" (PyDict []) (IdInt 2).
Definition ping_notification : JSONRPCNotification := mkNotification "PING" (PyDict []).

(** Envelope parsing, on five payloads. *)
Definition validate_jsonrpc_message (raw : string) : result parsed_message :=
  if String.eqb raw "ping 1" then Ok (ParsedRequest ping_request)
  else if String.eqb raw "unknown 2" then Ok (ParsedRequest unknown_request)
  else if String.eqb raw "ping" then Ok (ParsedNotification ping_notification)
  else if String.eqb raw "set 3" then
    Ok (ParsedRequest (mkRequest "SET" (PyDict []) (IdInt 3)))
  else if String.eqb raw "[]" then Ok (ParsedOther (PyList []))
  else if String.eqb raw "" then Raise (Exn "ValueError" "empty payload")
  else Ok (ParsedError (mkError (-32600) "Invalid Request" PyNone IdNone)).

(** Schema validation: params must be an object; a list makes the
    validator raise, anything else is a mismatch. *)
Definition validate_a2a_message (method : string) (params : pyval)
  : result (option A2AMessage) :=
  match params with
  | PyDict _ => Ok (Some params)
  | PyList _ => Raise (Exn "TypeError" "argument after ** must be a mapping, not list")
  | _ => Ok None
  end.

(** Business rule: the object carries no key "forbidden". *)
Definition validate_business_rules (m : A2AMessage) : result bool :=
  match m with
  | PyDict d => Ok (negb (existsb (fun '(k, _) => String.eqb k "forbidden") d))
  | _ => Ok false
  end.

(** Decimal digits only. *)
Fixpoint digits (s : string) (acc : Z) : option Z :=
  match s with
  | EmptyString => Some acc
  | String c s' =>
      let n := Z.of_nat (Ascii.nat_of_ascii c) in
      if ((48 <=? n)%Z && (n <=? 57)%Z)%bool
      then digits s' (10 * acc + (n - 48))%Z else None
  end.

Definition py_int (s : string) : option Z :=
  match s with
  | EmptyString => None
  | _ => digits s 0
  end.

Definition ping : @handler World A2AMessage :=
  fun _ w => (Ok (PyDict [("pong", PyBool true)]), S w).
Definition boom : @handler World A2AMessage :=
  fun _ w => (Raise (Exn "RuntimeError" "boom"), S w).
Definition as_set : @handler World A2AMessage :=
  fun _ w => (Ok (PyObject "set"), S w).

Definition server : @A2AServer World A2AMessage :=
  mkServer None None []
    (<["PING" := ping]> (<["BOOM" := boom]> (<["SET" := as_set]> ∅))).

Definition st0 : @state World A2AMessage := mkState 0%nat [] [] [].

Definition handle_request :=
  @_handle_request World A2AMessage validate_a2a_message validate_business_rules.
Definition handle_notification :=
  @_handle_notification World A2AMessage validate_a2a_message validate_business_rules.
Definition handle_jsonrpc :=
  @_handle_jsonrpc World A2AMessage validate_jsonrpc_message validate_a2a_message validate_business_rules.

End Toy.

(** ** Properties of the dispatcher *)

(** ** Error tracking ([src/error_tracking.py]) *)

Module ErrorTracking.

(** A Python dict with string keys, in insertion order. *)
Definition dict : Type := list (string * pyval).

(** [d.get(k)], and [k in d] as [is_Some]. *)
Fixpoint dict_get (k : string) (d : dict) : option pyval :=
  match d with
  | [] => None
  | (k', v) :: d' => if String.eqb k k' then Some v else dict_get k d'
  end.

(** [d[k] = v]: the value of an existing key is replaced where it stands, a
    new key goes to the end. *)
Fixpoint dict_set (k : string) (v : pyval) (d : dict) : dict :=
  match d with
  | [] => [(k, v)]
  | (k', v') :: d' =>
      if String.eqb k k' then (k', v) :: d' else (k', v') :: dict_set k v d'
  end.

(** [container[key] = value] with a string key: only a dict takes it.
    Here [PyObject] stands for an object without [__setitem__]. *)
Definition setitem (container : pyval) (key : string) (value : pyval)
  : result pyval :=
  match container with
  | PyDict d => Ok (PyDict (dict_set key value d))
  | PyList _ =>
      Raise (Exn "TypeError" "list indices must be integers or slices, not str")
  | PyNone =>
      Raise (Exn "TypeError" "'NoneType' object does not support item assignment")
  | PyBool _ =>
      Raise (Exn "TypeError" "'bool' object does not support item assignment")
  | PyInt _ =>
      Raise (Exn "TypeError" "'int' object does not support item assignment")
  | PyStr _ =>
      Raise (Exn "TypeError" "'str' object does not support item assignment")
  | PyObject t =>
      Raise (Exn "TypeError" ("'" +:+ t +:+ "' object does not support item assignment"))
  end.

(** [event["tags"][key] = value]: the dict under "tags" is changed in
    place, so the event sees the change. *)
Definition set_tag (event : dict) (key : string) (value : pyval) : result dict :=
  match dict_get "tags" event with
  | None => Raise (Exn "KeyError" "'tags'")
  | Some tags =>
      match setitem tags key value with
      | Ok tags' => Ok (dict_set "tags" tags' event)
      | Raise e => Raise e
      end
  end.

(** [x == "info"]. *)
Definition is_info (x : option pyval) : bool :=
  match x with
  | Some (PyStr s) => String.eqb s "info"
  | _ => false
  end.

(** [os.getenv("ENVIRONMENT") == "development"]. *)
Definition in_development (env : gmap string string) : bool :=
  match env !! "ENVIRONMENT" with
  | Some s => String.eqb s "development"
  | None => false
  end.

(** [before_send(event, hint)], lines 47-61.  The event is changed in
    place: the second component is the caller's event object after the
    call, the first what the call returns or raises. *)
Definition before_send (env : gmap string string) (event : dict) (hint : pyval)
  : result (option dict) * dict :=
  if in_development env && is_info (dict_get "level" event) then (Ok None, event)
  else
    let event :=
      match dict_get "tags" event with
      | None => dict_set "tags" (PyDict []) event
      | Some _ => event
      end in
    match set_tag event "service" (PyStr "terra-constellata-backend") with
    | Raise e => (Raise e, event)
    | Ok event =>
        match set_tag event "component" (PyStr "api") with
        | Raise e => (Raise e, event)
        | Ok event => (Ok (Some event), event)
        end
    end.

(** The two tags, and the event after they went into the dict [tags]:
    what the statements about [before_send] name. *)
Definition service_tag : pyval := PyStr "terra-constellata-backend".
Definition component_tag : pyval := PyStr "api".

Definition tagged (event tags : dict) : dict :=
  dict_set "tags"
    (PyDict (dict_set "component" component_tag (dict_set "service" service_tag tags)))
    event.

(** The dict under "tags", if the event has one; [{}] if it has no such
    key. *)
Definition tags_of (event : dict) : option dict :=
  match dict_get "tags" event with
  | None => Some []
  | Some (PyDict tags) => Some tags
  | Some _ => None
  end.

(** The keyword arguments of the call [sentry_sdk.init(...)] of lines
    19-38; [before_send] is passed as it is.  The two float literals are
    kept as the decimals they are written as. *)
Record SentryInit : Type := mkSentryInit {
  dsn : string;
  environment : string;
  integrations : list string;
  traces_sample_rate : Q;
  release : string;
  send_default_pii : bool
}.

(** A record handed to [app_logger], with its [extra]. *)
Record app_record : Type := mkAppRecord {
  app_lvl : log_level;
  app_msg : string;
  app_extra : list (string * string)
}.

(** [init_sentry()], lines 13-45: the call it makes to [sentry_sdk.init],
    if any, and the record it logs. *)
Definition init_sentry (env : gmap string string) : option SentryInit * app_record :=
  let sentry_dsn := env !! "SENTRY_DSN" in
  let environment := default "development" (env !! "ENVIRONMENT") in
  match sentry_dsn with
  | Some d =>
      if String.eqb d "" then
        (None, mkAppRecord WARNING
                 "SENTRY_DSN not configured, error tracking disabled" [])
      else
        (Some (mkSentryInit d environment
                 ["FastApiIntegration"; "SqlAlchemyIntegration"; "LoggingIntegration"]
                 (if String.eqb environment "production" then 1 else 1 # 10)%Q
                 (default "1.0.0" (env !! "RELEASE_VERSION"))
                 true),
         mkAppRecord INFO "Sentry error tracking initialized"
           [("environment", environment);
            ("release", default "1.0.0" (env !! "RELEASE_VERSION"))])
  | None =>
      (None, mkAppRecord WARNING
               "SENTRY_DSN not configured, error tracking disabled" [])
  end.

(** Truth value testing ([if x:]).  An object without [__bool__] and
    [__len__], which is what [PyObject] stands for here, is true. *)
Definition truthy (v : pyval) : bool :=
  match v with
  | PyNone => false
  | PyBool b => b
  | PyInt n => negb (Z.eqb n 0)
  | PyStr s => negb (String.eqb s "")
  | PyList l => match l with [] => false | _ :: _ => true end
  | PyDict d => match d with [] => false | _ :: _ => true end
  | PyObject _ => true
  end.

(** The Sentry scope [sentry_sdk.configure_scope()] yields: the current
    scope itself, so what is set inside the [with] block stays set after
    it.  Its tags and its user. *)
Record Scope : Type := mkScope {
  scope_tags : dict;
  scope_user : option pyval
}.

(** What [sentry_sdk.capture_exception] and [sentry_sdk.capture_message]
    were called with, and the scope they were called under. *)
Inductive capture : Type :=
| CapturedException (exc : exn) (under : Scope)
| CapturedMessage (message level : string) (under : Scope).

Record Sentry : Type := mkSentry {
  scope : Scope;
  captures : list capture
}.

(** [scope.set_tag(key, value)]. *)
Definition set_scope_tag (sc : Scope) (key : string) (value : pyval) : Scope :=
  mkScope (dict_set key value (scope_tags sc)) (scope_user sc).

(** [for key, value in kwargs.items(): scope.set_tag(key, value)]. *)
Definition set_scope_tags (sc : Scope) (kwargs : dict) : Scope :=
  fold_left (fun sc '(key, value) => set_scope_tag sc key value) kwargs sc.

(** [capture_exception(exc, **kwargs)], lines 63-69. *)
Definition capture_exception (exc : exn) (kwargs : dict) (s : Sentry) : Sentry :=
  let sc := set_scope_tags (scope s) kwargs in
  mkSentry sc (captures s ++ [CapturedException exc sc]).

(** [capture_message(message, level="info", **kwargs)], lines 71-77. *)
Definition capture_message (message : string) (level : option string)
    (kwargs : dict) (s : Sentry) : Sentry :=
  let level := default "info" level in
  let sc := set_scope_tags (scope s) kwargs in
  mkSentry sc (captures s ++ [CapturedMessage message level sc]).

(** [set_user_context(user_id=None, email=None, username=None)], lines
    79-87. *)
Definition set_user_context (user_id email username : pyval) (s : Sentry) : Sentry :=
  if truthy user_id then
    mkSentry
      (mkScope (scope_tags (scope s))
         (Some (PyDict [("id", user_id); ("email", email); ("username", username)])))
      (captures s)
  else s.


End ErrorTracking.

(** ** The upload endpoint ([src/backend/api/multimedia.py]) *)

Module Multimedia.

(** [s.split(sep)] for a separator of one character: never empty. *)
Fixpoint split_on (sep : Ascii.ascii) (s : string) : list string :=
  match s with
  | EmptyString => [EmptyString]
  | String c s' =>
      if Ascii.eqb c sep then EmptyString :: split_on sep s'
      else match split_on sep s' with
           | [] => [String c EmptyString]
           | x :: xs => String c x :: xs
           end
  end.

Definition UPLOAD_DIR : string := "uploads".

(** [fastapi.UploadFile]: the attributes [upload_file] reads, and what
    [await file.read()] gives. *)
Record UploadFile : Type := mkUploadFile {
  filename : option string;
  content_type : option string;
  read : result string
}.

(** [f"{x}"] of an optional string. *)
Definition format_opt (x : option string) : string := default "None" x.

(** [HTTPException(status_code, detail)]. *)
Definition HTTPException (status_code : string) (detail : string) : exn :=
  Exn "HTTPException" (status_code +:+ ": " +:+ detail).

(** Line 28: [file.content_type.split("/")[0] if file.content_type else
    "unknown"]. *)
Definition file_type_of (content_type : option string) : result string :=
  match content_type with
  | None => Ok "unknown"
  | Some ct =>
      if String.eqb ct "" then Ok "unknown"
      else match split_on "/"%char ct with
           | x :: _ => Ok x
           | [] => Raise (Exn "IndexError" "list index out of range")
           end
  end.

Section Upload.

(** The file system and the database session, with the calls made on
    them: [aiofiles.open(path, "wb")], the [write] and the closing of the
    file it yields, the constructor of [schemas.MultimediaCreate], and
    [crud.create_multimedia] and [crud.get_multimedia], none of which is
    under src/. *)
Context {FS DB Handle Row Create : Type}.
Variable open_wb : string -> FS -> result Handle * FS.
Variable write : Handle -> string -> FS -> result unit * FS.
Variable close : Handle -> FS -> result unit * FS.
Variable MultimediaCreate : option string -> string -> Z -> result Create.
Variable create_multimedia : Create -> string -> DB -> result Row * DB.
Variable crud_get_multimedia : Z -> DB -> result (option Row) * DB.

(** Lines 23-25: the [async with] block.  The file is closed on the way
    out, also when reading or writing raised; an exception of the closing
    is the one that propagates. *)
Definition save (file_path : string) (file : UploadFile) (fs : FS)
  : result unit * FS :=
  match open_wb file_path fs with
  | (Raise e, fs) => (Raise e, fs)
  | (Ok out_file, fs) =>
      let '(written, fs) :=
        match read file with
        | Raise e => (Raise e, fs)
        | Ok content => write out_file content fs
        end in
      match close out_file fs with
      | (Raise e, fs) => (Raise e, fs)
      | (Ok _, fs) => (written, fs)
      end
  end.

(** [upload_file(file, content_id, db)], lines 15-36. *)
Definition upload_file (file : UploadFile) (content_id : option Z)
    (fs : FS) (db : DB) : result Row * (FS * DB) :=
  match content_id with
  | None => (Raise (HTTPException "400" "content_id is required"), (fs, db))
  | Some cid =>
      if Z.eqb cid 0 then
        (Raise (HTTPException "400" "content_id is required"), (fs, db))
      else
        let file_path := UPLOAD_DIR +:+ "/" +:+ format_opt (filename file) in
        match save file_path file fs with
        | (Raise e, fs) => (Raise e, (fs, db))
        | (Ok _, fs) =>
            match file_type_of (content_type file) with
            | Raise e => (Raise e, (fs, db))
            | Ok file_type =>
                match MultimediaCreate (filename file) file_type cid with
                | Raise e => (Raise e, (fs, db))
                | Ok multimedia_data =>
                    let '(r, db) := create_multimedia multimedia_data file_path db in
                    (r, (fs, db))
                end
            end
        end
  end.

(** [get_multimedia(multimedia_id, db)], lines 40-44. *)
Definition get_multimedia (multimedia_id : Z) (db : DB) : result Row * DB :=
  match crud_get_multimedia multimedia_id db with
  | (Raise e, db) => (Raise e, db)
  | (Ok None, db) => (Raise (HTTPException "404" "Multimedia not found"), db)
  | (Ok (Some db_multimedia), db) => (Ok db_multimedia, db)
  end.

End Upload.

End Multimedia.

(** ** CSV ingestion ([src/data/postgis/ingestion.py]) *)

Module Ingestion.

(** Programs over a state [S] that return or raise. *)
Definition ST (S A : Type) : Type := S -> result A * S.

Definition sret {S A} (a : A) : ST S A := fun st => (Ok a, st).

Definition sbind {S A B} (m : ST S A) (k : A -> ST S B) : ST S B :=
  fun st =>
    match m st with
    | (Ok a, st') => k a st'
    | (Raise e, st') => (Raise e, st')
    end.

Definition sraise {S A} (e : exn) : ST S A := fun st => (Raise e, st).

(** [try: body / except Exception as e: on_error]. *)
Definition stry {S A} (body : ST S A) (on_error : exn -> ST S A) : ST S A :=
  fun st =>
    match body st with
    | (Ok a, st') => (Ok a, st')
    | (Raise e, st') => on_error e st'
    end.

(** [for x in xs: acc = body(x, acc)]; an exception ends the loop. *)
Fixpoint for_each {S A B} (xs : list A) (body : A -> B -> ST S B) (acc : B) : ST S B :=
  match xs with
  | [] => sret acc
  | x :: xs' => sbind (body x acc) (for_each xs' body)
  end.

(** [range(start, stop, step)] as a list. *)
Definition py_range (start stop step : Z) : result (list Z) :=
  if Z.eqb step 0 then Raise (Exn "ValueError" "range() arg 3 must not be zero")
  else
    let count :=
      if Z.ltb 0 step then (stop - start + step - 1) / step
      else (start - stop - step - 1) / (- step) in
    Ok (map (fun k => start + Z.of_nat k * step) (seq 0 (Z.to_nat count))).

(** [repr] of a list of strings that hold neither quote nor backslash. *)
Definition repr_str (s : string) : string := "'" +:+ s +:+ "'".
Definition repr_list (l : list string) : string :=
  "[" +:+ String.concat ", " (map repr_str l) +:+ "]".

(** [re.match(r'^https?://', s)]. *)
Definition is_http_url (s : string) : bool :=
  String.prefix "http://" s || String.prefix "https://" s.

(** A query parameter of [execute_command]. *)
Inductive sql_param : Type :=
| SqlStr (s : string)
| SqlInt (n : Z)
| SqlNull.

(** An entry of the list [validate_data_quality] returns. *)
Record Issue : Type := mkIssue {
  issue_type : string;
  issue_column : option string;
  issue_count : Z;
  severity : string
}.

(** The dict [ingest_csv_file] returns. *)
Record IngestResult : Type := mkResult {
  success : bool;
  records_processed : Z;
  records_inserted : Z;
  errors : list string;
  quality_issues : list Issue;
  file_path : string
}.

Definition expected_columns : list string :=
  ["row_number"; "name"; "entity"; "sub_entity";
   "description"; "source_url"; "latitude"; "longitude"].

Definition insert_query : string := "
        INSERT INTO puzzle_pieces (
            row_number, name, entity, sub_entity, description,
            source_url, latitude, longitude, geom
        ) VALUES (
            %s, %s, %s, %s, %s, %s, %s, %s,
            ST_SetSRID(ST_MakePoint(%s, %s), 4326)
        )
        ON CONFLICT (row_number) DO UPDATE SET
            name = EXCLUDED.name,
            entity = EXCLUDED.entity,
            sub_entity = EXCLUDED.sub_entity,
            description = EXCLUDED.description,
            source_url = EXCLUDED.source_url,
            latitude = EXCLUDED.latitude,
            longitude = EXCLUDED.longitude,
            geom = EXCLUDED.geom,
            updated_at = CURRENT_TIMESTAMP
        ".

Definition log_query : string := "
            INSERT INTO processing_log (operation, status, records_processed, error_message, completed_at)
            VALUES (%s, %s, %s, %s, CURRENT_TIMESTAMP)
            ".

Section Ingest.

(** The scalars of a pandas frame, the database behind [self.db], and a
    numeric column as [pd.to_numeric] returns it. *)
Context {Cell DB Numeric : Type}.

(** A row of a frame: [row.get(column)] is the lookup, [None] for a column
    the frame does not have. *)
Definition Row : Type := gmap string Cell.

Record DataFrame : Type := mkFrame {
  columns : list string;
  rows : list Row
}.

(** The ten parameters of one [INSERT]. *)
Definition tuple : Type := list (option Cell).

(** The pandas computations, the float comparison of line 193, [Path.name]
    and the database calls of [connection.py]: what the module calls and
    does not define.
    - [pd_read_csv path]: [pd.read_csv(path, ...)];
    - [to_numeric col df]: [pd.to_numeric(df[col], errors='coerce')];
    - [count_outside x lo hi]: [len(x[(x < lo) | (x > hi)])];
    - [clean_frame df]: lines 133-166 of [clean_data];
    - [missing_count col df]: [df[col].isnull().sum()];
    - [zero_coords df]: [((df['latitude'] == 0) & (df['longitude'] == 0)).sum()];
    - [duplicate_names df]: [df['name'].duplicated().sum()];
    - [source_urls df]: [str(url)] for the [url] of [df['source_url'].dropna()];
    - [below_tenth m n]: [m < n * 0.1] in floating point;
    - [isna x]: [pd.isna(x)] on a scalar. *)
Variable pd_read_csv : string -> result DataFrame.
Variable to_numeric : string -> DataFrame -> result Numeric.
Variable count_outside : Numeric -> Z -> Z -> result Z.
Variable clean_frame : DataFrame -> result DataFrame.
Variable missing_count : string -> DataFrame -> Z.
Variable zero_coords : DataFrame -> Z.
Variable duplicate_names : DataFrame -> Z.
Variable source_urls : DataFrame -> list string.
Variable below_tenth : Z -> Z -> bool.
Variable isna : Cell -> bool.
Variable path_name : string -> string.
Variable executemany : string -> list tuple -> DB -> result unit * DB.
Variable commit : DB -> result unit * DB.
Variable rollback : DB -> result unit * DB.
Variable execute_command : string -> list sql_param -> DB -> result unit * DB.

(** The state: the database, the records handed to the module's [logger],
    and a history of the batches handed to [executemany], kept to state
    what reaches the database; no code reads it. *)
Record istate : Type := mkIState {
  db : DB;
  ilog : list log_record;
  batches : list (list tuple)
}.

Definition IO (A : Type) : Type := ST istate A.

Definition logger (lvl : log_level) (msg : string) : IO unit :=
  fun st => (Ok tt, mkIState (db st) (ilog st ++ [mkLog lvl msg]) (batches st)).

(** A call on the database. *)
Definition on_db (call : DB -> result unit * DB) : IO unit :=
  fun st =>
    let '(r, d) := call (db st) in
    (r, mkIState d (ilog st) (batches st)).

Definition cursor_executemany (query : string) (data : list tuple) : IO unit :=
  fun st =>
    let '(r, d) := executemany query data (db st) in
    (r, mkIState d (ilog st) (batches st ++ [data])).

Definition len (df : DataFrame) : Z := Z.of_nat (length (rows df)).

(** [read_csv_file(file_path)], lines 40-66. *)
Definition read_csv_file (file_path : string) : IO DataFrame :=
  stry
    (sbind (logger INFO ("Reading CSV file: " +:+ file_path)) (fun _ =>
     sbind (fun st => (pd_read_csv file_path, st)) (fun df =>
     sbind (logger INFO ("Read " +:+ pretty (len df) +:+ " rows from CSV file")) (fun _ =>
     sret df))))
    (fun e =>
       sbind (logger ERROR ("Failed to read CSV file " +:+ file_path +:+ ": " +:+ exn_str e))
         (fun _ => sraise e)).

(** [col in df.columns]. *)
Definition has_column (df : DataFrame) (col : string) : bool :=
  bool_decide (col ∈ columns df).

(** [df.empty]: no row, or no column. *)
Definition empty (df : DataFrame) : bool :=
  match rows df, columns df with
  | [], _ | _, [] => true
  | _, _ => false
  end.

(** Lines 100-107 and 109-116: the range check of one coordinate, under
    its bare [except]. *)
Definition check_range (df : DataFrame) (col : string) (lo hi : Z) : list string :=
  if has_column df col then
    match to_numeric col df with
    | Raise _ => [col +:+ " column contains invalid values"]
    | Ok numeric =>
        match count_outside numeric lo hi with
        | Raise _ => [col +:+ " column contains invalid values"]
        | Ok n =>
            if Z.eqb n 0 then []
            else ["Found " +:+ pretty n +:+ " invalid " +:+ col +:+ " values"]
        end
    end
  else [].

(** [validate_csv_structure(df)], lines 68-118. *)
Definition validate_csv_structure (df : DataFrame) : bool * list string :=
  let missing_columns := filter (fun col => negb (has_column df col)) expected_columns in
  let issues : list string :=
    ((match missing_columns with
     | [] => []
     | _ :: _ => ["Missing required columns: " +:+ repr_list missing_columns]
     end)
    ++ (if empty df then ["CSV file is empty"] else [])
    ++ (if has_column df "row_number" then
          match to_numeric "row_number" df with
          | Raise _ => ["row_number column contains non-numeric values"]
          | Ok _ => []
          end
        else [])
    ++ check_range df "latitude" (-90) 90
    ++ check_range df "longitude" (-180) 180)%list in
  (match issues with [] => true | _ :: _ => false end, issues).

(** [clean_data(df)], lines 120-169. *)
Definition clean_data (df : DataFrame) : IO DataFrame :=
  sbind (logger INFO "Cleaning data...") (fun _ =>
  sbind (fun st => (clean_frame df, st)) (fun cleaned_df =>
  sbind (logger INFO ("Data cleaning completed. Rows: " +:+ pretty (len cleaned_df))) (fun _ =>
  sret cleaned_df))).

(** Lines 185-194: the missing values of one important column. *)
Definition check_missing (df : DataFrame) (col : string) : list Issue :=
  if has_column df col then
    let count := missing_count col df in
    if Z.ltb 0 count then
      [mkIssue "missing_values" (Some col) count
         (if below_tenth count (len df) then "WARNING" else "ERROR")]
    else []
  else [].

(** [validate_data_quality(df)], lines 171-230. *)
Definition validate_data_quality (df : DataFrame) : bool * list Issue :=
  let quality_issues : list Issue :=
    (check_missing df "name" ++ check_missing df "latitude"
    ++ check_missing df "longitude"
    ++ (if has_column df "latitude" && has_column df "longitude" then
          let count := zero_coords df in
          if Z.ltb 0 count then [mkIssue "zero_coordinates" None count "WARNING"]
          else []
        else [])
    ++ (if has_column df "name" then
          let count := duplicate_names df in
          if Z.ltb 0 count then [mkIssue "duplicate_names" None count "WARNING"]
          else []
        else [])
    ++ (if has_column df "source_url" then
          let invalid_urls :=
            Z.of_nat (length (filter (fun url => negb (is_http_url url)) (source_urls df))) in
          if Z.ltb 0 invalid_urls then [mkIssue "invalid_urls" None invalid_urls "WARNING"]
          else []
        else []))%list in
  (match filter (fun issue => String.eqb (severity issue) "ERROR") quality_issues with
   | [] => true
   | _ :: _ => false
   end, quality_issues).

(** [pd.isna(row.get(column))]: [None] is missing too. *)
Definition isna_opt (x : option Cell) : bool :=
  match x with
  | None => true
  | Some c => isna c
  end.

(** Lines 276-296: what one row adds to [batch_data]. *)
Definition batch_row (row : Row) : option tuple :=
  let lat := row !! "latitude" in
  let lon := row !! "longitude" in
  if isna_opt lat || isna_opt lon then None
  else Some [row !! "row_number"; row !! "name"; row !! "entity";
             row !! "sub_entity"; row !! "description"; row !! "source_url";
             lat; lon; lon; lat].

(** [df.iloc[i:j]] for [0 <= i <= j], as in the loop of
    [insert_data_batch]. *)
Definition iloc (df : DataFrame) (i j : Z) : DataFrame :=
  mkFrame (columns df) (take (Z.to_nat (j - i)) (drop (Z.to_nat i) (rows df))).

(** What the batch that starts at [i] holds for the database; the
    statements about the loop name it. *)
Definition batch_data_at (df : DataFrame) (batch_size i : Z) : list tuple :=
  omap batch_row (rows (iloc df i (i + batch_size))).

(** Lines 271-309: one turn of the loop, on [records_inserted] and
    [errors]. *)
Definition insert_batch (df : DataFrame) (batch_size : Z) (i : Z)
    (acc : Z * list string) : IO (Z * list string) :=
  let '(records_inserted, errors) := acc in
  let batch_df := iloc df i (i + batch_size) in
  stry
    (let batch_data := omap batch_row (rows batch_df) in
     match batch_data with
     | [] => sret (records_inserted, errors)
     | _ :: _ =>
         sbind (cursor_executemany insert_query batch_data) (fun _ =>
         sbind (on_db commit) (fun _ =>
         let records_inserted := records_inserted + Z.of_nat (length batch_data) in
         sbind (logger INFO ("Inserted batch " +:+ pretty (i / batch_size + 1) +:+ ": "
                             +:+ pretty (Z.of_nat (length batch_data)) +:+ " records"))
           (fun _ => sret (records_inserted, errors))))
     end)
    (fun e =>
       let error_msg :=
         "Failed to insert batch " +:+ pretty (i / batch_size + 1) +:+ ": " +:+ exn_str e in
       sbind (logger ERROR error_msg) (fun _ =>
       let errors := (errors ++ [error_msg])%list in
       sbind (on_db rollback) (fun _ =>
       sret (records_inserted, errors)))).

(** [insert_data_batch(df, batch_size)], lines 232-311. *)
Definition insert_data_batch (df : DataFrame) (batch_size : Z) : IO (Z * list string) :=
  sbind (logger INFO ("Inserting " +:+ pretty (len df) +:+ " records in batches of "
                      +:+ pretty batch_size)) (fun _ =>
  sbind (fun st => (py_range 0 (len df) batch_size, st)) (fun starts =>
  for_each starts (insert_batch df batch_size) (0, []))).

(** [log_processing_result(operation, status, records_processed,
    error_message)], lines 313-331. *)
Definition log_processing_result (operation status : string)
    (records_processed : Z) (error_message : option string) : IO unit :=
  stry
    (on_db (execute_command log_query
              [SqlStr operation; SqlStr status; SqlInt records_processed;
               match error_message with Some m => SqlStr m | None => SqlNull end]))
    (fun e => logger ERROR ("Failed to log processing result: " +:+ exn_str e)).

(** Inside [ingest_csv_file] the dict [result] is a second piece of state:
    what was stored in it before an exception is still there in the
    [except] suite. *)
Definition lift_io {A} (m : IO A) : ST (istate * IngestResult) A :=
  fun '(st, res) => let '(r, st') := m st in (r, (st', res)).

Definition update (f : IngestResult -> IngestResult) : ST (istate * IngestResult) unit :=
  fun '(st, res) => (Ok tt, (st, f res)).

Definition get_result : ST (istate * IngestResult) IngestResult :=
  fun '(st, res) => (Ok res, (st, res)).

Definition set_success (b : bool) (r : IngestResult) : IngestResult :=
  mkResult b (records_processed r) (records_inserted r) (errors r)
    (quality_issues r) (file_path r).
Definition set_records_processed (n : Z) (r : IngestResult) : IngestResult :=
  mkResult (success r) n (records_inserted r) (errors r)
    (quality_issues r) (file_path r).
Definition set_records_inserted (n : Z) (r : IngestResult) : IngestResult :=
  mkResult (success r) (records_processed r) n (errors r)
    (quality_issues r) (file_path r).
Definition extend_errors (l : list string) (r : IngestResult) : IngestResult :=
  mkResult (success r) (records_processed r) (records_inserted r) (errors r ++ l)
    (quality_issues r) (file_path r).
Definition set_quality_issues (l : list Issue) (r : IngestResult) : IngestResult :=
  mkResult (success r) (records_processed r) (records_inserted r) (errors r)
    l (file_path r).

(** The [try] suite of [ingest_csv_file], lines 354-389. *)
Definition ingest_try (path : string) (batch_size : Z)
  : ST (istate * IngestResult) unit :=
  sbind (lift_io (read_csv_file path)) (fun df =>
  let '(is_valid, structure_issues) := validate_csv_structure df in
  if negb is_valid then
    sbind (update (extend_errors structure_issues)) (fun _ =>
    update (set_success false))
  else
    sbind (lift_io (clean_data df)) (fun cleaned_df =>
    let '(is_quality_ok, issues) := validate_data_quality cleaned_df in
    sbind (update (set_quality_issues issues)) (fun _ =>
    sbind (lift_io (insert_data_batch cleaned_df batch_size)) (fun '(inserted, insert_errors) =>
    sbind (update (set_records_processed (len cleaned_df))) (fun _ =>
    sbind (update (set_records_inserted inserted)) (fun _ =>
    sbind (update (extend_errors insert_errors)) (fun _ =>
    sbind (update (set_success
                     (match insert_errors with [] => true | _ :: _ => false end
                      && is_quality_ok))) (fun _ =>
    sbind get_result (fun result =>
    let status :=
      if success result then "SUCCESS"
      else if Z.ltb 0 inserted then "PARTIAL" else "FAILED" in
    sbind (lift_io (log_processing_result
                      ("CSV Ingestion: " +:+ path_name path) status inserted
                      (match errors result with
                       | [] => None
                       | _ :: _ => Some (String.concat "; " (errors result))
                       end))) (fun _ =>
    lift_io (logger INFO ("Ingestion completed: " +:+ pretty inserted +:+ "/"
                          +:+ pretty (len cleaned_df) +:+ " records inserted")))))))))))).

(** The [except] suite of [ingest_csv_file], lines 391-403. *)
Definition ingest_except (path : string) (e : exn)
  : ST (istate * IngestResult) unit :=
  let error_msg := "Ingestion failed: " +:+ exn_str e in
  sbind (lift_io (logger ERROR error_msg)) (fun _ =>
  sbind (update (extend_errors [error_msg])) (fun _ =>
  sbind (update (set_success false)) (fun _ =>
  lift_io (log_processing_result ("CSV Ingestion: " +:+ path_name path)
             "FAILED" 0 (Some error_msg))))).

(** [ingest_csv_file(file_path, batch_size)], lines 333-405. *)
Definition ingest_csv_file (path : string) (batch_size : Z) : IO IngestResult :=
  fun st =>
    let result := mkResult false 0 0 [] [] path in
    match stry (ingest_try path batch_size) (ingest_except path) (st, result) with
    | (Ok _, (st', result)) => (Ok result, st')
    | (Raise e, (st', _)) => (Raise e, st')
    end.

End Ingest.

End Ingestion.

(** ** Small instances of the upload endpoint and of the ingestion *)

Module ToyTracking.

Import ErrorTracking.

Definition development : gmap string string := {["ENVIRONMENT" := "development"]}.
Definition failure : dict := [("level", PyStr "error"); ("message", PyStr "boom")].
Definition failure_tagged : dict :=
  [("level", PyStr "error"); ("message", PyStr "boom");
   ("tags", PyDict [("service", PyStr "terra-constellata-backend");
                    ("component", PyStr "api")])].

(** A scope with one tag and no capture yet. *)
Definition quiet : Sentry := mkSentry (mkScope [("release", PyStr "1.0.0")] None) [].

End ToyTracking.

Module ToyUpload.

(** Files by path, and the rows of the multimedia table. *)
Definition FS : Type := gmap string string.
Definition Create : Type := (option string * string * Z)%type.
Definition Row : Type := (Create * string)%type.
Definition DB : Type := list Row.

Definition open_wb (path : string) (fs : FS) : result string * FS :=
  (Ok path, <[path := ""]> fs).
Definition write (out_file content : string) (fs : FS) : result unit * FS :=
  (Ok tt, <[out_file := content]> fs).
Definition close (out_file : string) (fs : FS) : result unit * FS := (Ok tt, fs).
Definition MultimediaCreate (filename : option string) (file_type : string)
    (content_id : Z) : result Create :=
  Ok (filename, file_type, content_id).
Definition create_multimedia (record : Create) (path : string) (db : DB)
  : result Row * DB :=
  (Ok (record, path), (db ++ [(record, path)])%list).

Definition photo : Multimedia.UploadFile :=
  Multimedia.mkUploadFile (Some "a.png") (Some "image/png") (Ok "PNG...").

Definition upload :=
  Multimedia.upload_file open_wb write close MultimediaCreate create_multimedia.

End ToyUpload.

Module ToyIngestion.

Import Ingestion.

Inductive Cell : Type :=
| Num (n : Z)
| Text (s : string)
| NaN.

Definition isna (c : Cell) : bool :=
  match c with NaN => true | _ => false end.

Definition piece (number : Z) (name : string) (lat lon : Cell) : @Row Cell :=
  <["row_number" := Num number]>
    (<["name" := Text name]>
       (<["latitude" := lat]> (<["longitude" := lon]> ∅))).

(** Three pieces; the second has no latitude. *)
Definition pieces : @DataFrame Cell :=
  mkFrame expected_columns
    [piece 1 "Giza" (Num 30) (Num 31);
     piece 2 "Nowhere" NaN (Num 5);
     piece 3 "Uluru" (Num (-25)) (Num 131)].

(** Two pieces, both with coordinates. *)
Definition complete : @DataFrame Cell :=
  mkFrame expected_columns
    [piece 1 "Giza" (Num 30) (Num 31); piece 3 "Uluru" (Num (-25)) (Num 131)].

(** A frame without the two coordinate columns. *)
Definition headless : @DataFrame Cell :=
  mkFrame ["row_number"; "name"] [<["row_number" := Num 1]> (<["name" := Text "x"]> ∅)].

Definition pd_read_csv (path : string) : result (@DataFrame Cell) :=
  if String.eqb path "pieces.csv" then Ok pieces
  else if String.eqb path "complete.csv" then Ok complete
  else if String.eqb path "headless.csv" then Ok headless
  else Raise (Exn "FileNotFoundError" ("No such file or directory: " +:+ path)).

Definition Numeric : Type := list (option Z).

Definition to_numeric (col : string) (df : @DataFrame Cell) : result Numeric :=
  Ok (map (fun row => match row !! col with Some (Num n) => Some n | _ => None end)
        (rows df)).

Definition count_outside (x : Numeric) (lo hi : Z) : result Z :=
  Ok (Z.of_nat (length (List.filter
                          (fun v => match v with
                                    | Some n => Z.ltb n lo || Z.ltb hi n
                                    | None => false
                                    end) x))).

Definition clean_frame (df : @DataFrame Cell) : result (@DataFrame Cell) := Ok df.

Definition missing_count (col : string) (df : @DataFrame Cell) : Z :=
  Z.of_nat (length (List.filter
                      (fun row => match row !! col with
                                  | Some c => isna c
                                  | None => true
                                  end) (rows df))).

Definition zero_coords (df : @DataFrame Cell) : Z := 0.
Definition duplicate_names (df : @DataFrame Cell) : Z := 0.
Definition source_urls (df : @DataFrame Cell) : list string := [].
Definition below_tenth (m n : Z) : bool := Z.ltb (10 * m) n.
Definition path_name (path : string) : string := path.

(** The database: the number of pieces stored and of log rows written. *)
Definition DB : Type := (Z * Z)%type.

Definition executemany (query : string) (data : list (@tuple Cell)) (d : DB)
  : result unit * DB :=
  (Ok tt, (d.1 + Z.of_nat (length data), d.2)).
Definition commit (d : DB) : result unit * DB := (Ok tt, d).
Definition rollback (d : DB) : result unit * DB := (Ok tt, d).
Definition execute_command (query : string) (params : list sql_param) (d : DB)
  : result unit * DB :=
  (Ok tt, (d.1, d.2 + 1)).

Definition st0 : @istate Cell DB := mkIState (0, 0) [] [].

Definition validate_structure := validate_csv_structure to_numeric count_outside.
Definition validate_quality :=
  validate_data_quality missing_count zero_coords duplicate_names source_urls
    below_tenth.
Definition insert_rows := insert_data_batch isna executemany commit rollback.
Definition ingest :=
  ingest_csv_file pd_read_csv to_numeric count_outside clean_frame missing_count
    zero_coords duplicate_names source_urls below_tenth isna path_name
    executemany commit rollback execute_command.

End ToyIngestion.

(** Reduces what became redexes, leaving the map lookups as written. *)
Ltac reduce :=
  cbv beta iota zeta; cbn [world log tasks invoked negb fst snd].

(** Unfolds a run down to its state transformer. *)
Ltac run :=
  unfold _handle_jsonrpc, _handle_jsonrpc_try, _handle_jsonrpc_except,
    _handle_request, _handle_notification, _json_response,
    try_except, bind, lift, ret, logger, create_task, await_handler,
    logged, called, scheduled;
  reduce.

(** Finishes a goal on two states that differ in how their lists are
    bracketed. *)
Ltac same_state :=
  unfold extend, logged, called, scheduled, ret; reduce;
  rewrite ?app_nil_r, <- ?app_assoc; reflexivity.

(** Splits a run of [_handle_request] into its seven paths: unknown method,
    validator raised, no message, rules raised, rules failed, handler
    returned, handler raised. *)
Ltac request_paths va vb self rq st :=
  unfold _handle_request, try_except, bind, lift, ret, logger, await_handler;
  reduce;
  destruct (methods self !! req_method rq) as [?h|] eqn:?Hreg;
  [ destruct (va (req_method rq) (req_params rq)) as [[?m|]|?e] eqn:?Hschema;
    reduce;
    [ destruct (vb m) as [[]|?e] eqn:?Hrules; reduce;
      [ destruct (h m (world st)) as [[?v|?e] ?w] eqn:?Hcall; reduce | | ]
    | | ]
  | ].

Section Properties.

Context {World A2AMessage : Type}.
Variable validate_jsonrpc_message : string -> result parsed_message.
Variable validate_a2a_message : string -> pyval -> result (option A2AMessage).
Variable validate_business_rules : A2AMessage -> result bool.
Variable py_int : string -> option Z.

Abbreviation state := (@state World A2AMessage).
Abbreviation A2AServer := (@A2AServer World A2AMessage).
Abbreviation handler := (@handler World A2AMessage).
Abbreviation handle_request :=
  (_handle_request validate_a2a_message validate_business_rules).
Abbreviation handle_notification :=
  (_handle_notification validate_a2a_message validate_business_rules).
Abbreviation handle_jsonrpc_try :=
  (_handle_jsonrpc_try validate_jsonrpc_message validate_a2a_message
     validate_business_rules).
Abbreviation handle_jsonrpc :=
  (_handle_jsonrpc validate_jsonrpc_message validate_a2a_message
     validate_business_rules).
Abbreviation init := (@__init__ World A2AMessage py_int).

(** *** Serialization of the response objects *)

Lemma id_value_serializable (i : rpc_id) : json_serializable (id_value i) = true.
Proof. by destruct i. Qed.

Lemma error_dict_serializable (e : JSONRPCErrorResponse) :
  json_serializable (error_dict e) = json_serializable (err_data e).
Proof.
  unfold error_dict. simpl. rewrite id_value_serializable.
  by rewrite !andb_true_r.
Qed.

Lemma success_dict_serializable (r : JSONRPCSuccessResponse) :
  json_serializable (success_dict r) = json_serializable (res_result r).
Proof.
  unfold success_dict. simpl. rewrite id_value_serializable.
  by rewrite !andb_true_r.
Qed.

Lemma json_dumps_ok (doc : pyval) :
  json_serializable doc = true -> json_dumps doc = Ok doc.
Proof. unfold json_dumps. by intros ->. Qed.

Lemma json_response_ok (doc : pyval) (st : state) :
  json_serializable doc = true ->
  _json_response doc st = (Ok (json_http doc), st).
Proof. intros H. run. by rewrite (json_dumps_ok _ H). Qed.

(** The errors the dispatcher itself builds carry a string as data, so
    they always serialize. *)
Lemma json_response_own_error code message data id (st : state) :
  _json_response (error_dict (_create_error_response code message (PyStr data) id)) st
  = (Ok (json_http (error_dict (mkError code message (PyStr data) id))), st).
Proof. apply json_response_ok. by rewrite error_dict_serializable. Qed.

(** *** The registry *)

(** [register_method] stores the handler under its name, over any earlier
    one, and leaves the other names alone. *)
Lemma register_method_lookup
    (self : A2AServer) (name : string) (h : handler) (st : state) :
  exists self' : A2AServer,
    register_method self name h st
    = (Ok self', logged st INFO ("Registered method: " +:+ name))
    /\ methods self' !! name = Some h
    /\ (forall other : string, other <> name ->
          methods self' !! other = methods self !! other)
    /\ host self' = host self /\ port self' = port self.
Proof.
  eexists. split; [reflexivity|]. cbn [methods set_methods host port].
  split; [by rewrite lookup_insert_eq|].
  split; [|done]. intros other Hother. by rewrite lookup_insert_ne.
Qed.

(** *** Requests *)

(** The four ways through [_handle_request] that end without an exception
    in the validators. *)
Lemma handle_request_unknown
    (self : A2AServer) (rq : JSONRPCRequest) (st : state) :
  methods self !! req_method rq = None ->
  handle_request self rq st
  = (Ok (Error (mkError (-32601) "Method not found"
                  (PyStr ("Method '" +:+ req_method rq +:+ "' not found"))
                  (req_id rq))), st).
Proof. intros Hreg. run. by rewrite Hreg. Qed.

Lemma handle_request_schema_mismatch
    (self : A2AServer) (rq : JSONRPCRequest) (st : state) (h : handler) :
  methods self !! req_method rq = Some h ->
  validate_a2a_message (req_method rq) (req_params rq) = Ok None ->
  handle_request self rq st
  = (Ok (Error (mkError (-32602) "Invalid params"
                  (PyStr "Invalid A2A message parameters") (req_id rq))), st).
Proof. intros Hreg Hschema. run. by rewrite Hreg, Hschema. Qed.

Lemma handle_request_rules_fail
    (self : A2AServer) (rq : JSONRPCRequest) (st : state)
    (h : handler) (m : A2AMessage) :
  methods self !! req_method rq = Some h ->
  validate_a2a_message (req_method rq) (req_params rq) = Ok (Some m) ->
  validate_business_rules m = Ok false ->
  handle_request self rq st
  = (Ok (Error (mkError (-32602) "Invalid params"
                  (PyStr "Business rule validation failed") (req_id rq))), st).
Proof.
  intros Hreg Hschema Hrules. run. rewrite Hreg, Hschema. reduce.
  by rewrite Hrules.
Qed.

Lemma handle_request_returned
    (self : A2AServer) (rq : JSONRPCRequest) (st : state)
    (h : handler) (m : A2AMessage) (v : pyval) (w : World) :
  methods self !! req_method rq = Some h ->
  validate_a2a_message (req_method rq) (req_params rq) = Ok (Some m) ->
  validate_business_rules m = Ok true ->
  h m (world st) = (Ok v, w) ->
  handle_request self rq st
  = (Ok (Success (mkSuccess v (req_id rq))), called st (req_method rq) m w).
Proof.
  intros Hreg Hschema Hrules Hcall.
  run. rewrite Hreg, Hschema. reduce. rewrite Hrules. reduce.
  by rewrite Hcall.
Qed.

Lemma handle_request_raised
    (self : A2AServer) (rq : JSONRPCRequest) (st : state)
    (h : handler) (m : A2AMessage) (e : exn) (w : World) :
  methods self !! req_method rq = Some h ->
  validate_a2a_message (req_method rq) (req_params rq) = Ok (Some m) ->
  validate_business_rules m = Ok true ->
  h m (world st) = (Raise e, w) ->
  handle_request self rq st
  = (Ok (Error (mkError (-32603) "Internal error" (PyStr (exn_str e)) (req_id rq))),
     logged (called st (req_method rq) m w) ERROR
       ("Error executing method " +:+ req_method rq +:+ ": " +:+ exn_str e)).
Proof.
  intros Hreg Hschema Hrules Hcall.
  run. rewrite Hreg, Hschema. reduce. rewrite Hrules. reduce.
  by rewrite Hcall.
Qed.

(** The [try] suite on a payload that parses to a Request: the debug
    record, then [_handle_request] and the rendering of its response. *)
Lemma handle_jsonrpc_try_request
    (self : A2AServer) (request : Request) (raw : string)
    (rq : JSONRPCRequest) (st : state) :
  request_text request = Ok raw ->
  validate_jsonrpc_message raw = Ok (ParsedRequest rq) ->
  handle_jsonrpc_try self request st
  = bind (handle_request self rq)
      (fun response =>
         bind (_json_response (response_dict response))
           (fun r => ret (Some r)))
      (logged st DEBUG ("Received raw message: " +:+ raw)).
Proof.
  intros Htext Hparse.
  unfold _handle_jsonrpc_try, bind, lift, logger, logged.
  rewrite Htext. reduce. by rewrite Hparse.
Qed.

(** At the transport, a response that serializes becomes the body. *)
Lemma handle_jsonrpc_request
    (self : A2AServer) (request : Request) (raw : string)
    (rq : JSONRPCRequest) (st st' : state) (response : rpc_response) :
  request_text request = Ok raw ->
  validate_jsonrpc_message raw = Ok (ParsedRequest rq) ->
  handle_request self rq (logged st DEBUG ("Received raw message: " +:+ raw))
  = (Ok response, st') ->
  json_serializable (response_dict response) = true ->
  handle_jsonrpc self request st
  = (Ok (Some (json_http (response_dict response))), st').
Proof.
  intros Htext Hparse Hrun Hser.
  unfold _handle_jsonrpc, try_except.
  rewrite (handle_jsonrpc_try_request _ _ _ _ _ Htext Hparse). unfold bind.
  by rewrite Hrun, (json_response_ok _ _ Hser).
Qed.

(** C1: for a Request whose method is registered, whose params the
    validator turns into a domain message, whose message passes the
    business rules and whose handler returns [v], [_handle_request]
    returns the success object with result [v] and the id of the Request,
    the handler having run once, on that message; and when [v] serializes,
    that object is the body of the response [_handle_jsonrpc] returns. *)
Theorem handle_request_success
    (self : A2AServer) (rq : JSONRPCRequest) (st : state)
    (h : handler) (m : A2AMessage) (v : pyval) (w : World) :
  methods self !! req_method rq = Some h ->
  validate_a2a_message (req_method rq) (req_params rq) = Ok (Some m) ->
  validate_business_rules m = Ok true ->
  h m (world st) = (Ok v, w) ->
  handle_request self rq st
  = (Ok (Success (create_success_response v (req_id rq))),
     called st (req_method rq) m w)
  /\ res_result (create_success_response v (req_id rq)) = v
  /\ res_id (create_success_response v (req_id rq)) = req_id rq
  /\ (forall (request : Request) (raw : string),
        request_text request = Ok raw ->
        validate_jsonrpc_message raw = Ok (ParsedRequest rq) ->
        json_serializable v = true ->
        handle_jsonrpc self request st
        = (Ok (Some (json_http
                       (success_dict (create_success_response v (req_id rq))))),
           called (logged st DEBUG ("Received raw message: " +:+ raw))
             (req_method rq) m w)).
Proof.
  intros Hreg Hschema Hrules Hcall.
  split; [by apply (handle_request_returned self rq st h m v w)|]. do 2 (split; [done|]).
  intros request raw Htext Hparse Hser.
  apply (handle_jsonrpc_request self request raw rq st _
           (Success (mkSuccess v (req_id rq))) Htext Hparse).
  - by apply (handle_request_returned self rq _ h m v w).
  - cbn [response_dict]. by rewrite success_dict_serializable.
Qed.

(** C3: for a Request whose method is not a key of the registry,
    [_handle_request] returns the error -32601 with the id of the Request
    and a data text that contains the method name, and [_handle_jsonrpc]
    renders it.  Neither validator is consulted: the statement holds for
    all of them, and no handler runs. *)
Theorem handle_request_method_not_found
    (self : A2AServer) (rq : JSONRPCRequest) (st : state) :
  methods self !! req_method rq = None ->
  exists e : JSONRPCErrorResponse,
    handle_request self rq st = (Ok (Error e), st)
    /\ err_code e = -32601
    /\ err_id e = req_id rq
    /\ err_message e = "Method not found"
    /\ err_data e = PyStr ("Method '" +:+ req_method rq +:+ "' not found")
    /\ (forall (request : Request) (raw : string),
          request_text request = Ok raw ->
          validate_jsonrpc_message raw = Ok (ParsedRequest rq) ->
          handle_jsonrpc self request st
          = (Ok (Some (json_http (error_dict e))),
             logged st DEBUG ("Received raw message: " +:+ raw))).
Proof.
  intros Hreg.
  exists (mkError (-32601) "Method not found"
            (PyStr ("Method '" +:+ req_method rq +:+ "' not found")) (req_id rq)).
  split; [by apply handle_request_unknown|]. do 4 (split; [done|]).
  intros request raw Htext Hparse.
  apply (handle_jsonrpc_request self request raw rq st _ (Error _) Htext Hparse).
  - by apply handle_request_unknown.
  - cbn [response_dict]. by rewrite error_dict_serializable.
Qed.

(** C5: for a Request with a registered method whose handler raises [e],
    [_handle_request] logs the failure and returns the error -32603 with
    the id of the Request and [str(e)] as data, and [_handle_jsonrpc]
    renders it. *)
Theorem handle_request_handler_raises
    (self : A2AServer) (rq : JSONRPCRequest) (st : state)
    (h : handler) (m : A2AMessage) (e : exn) (w : World) :
  methods self !! req_method rq = Some h ->
  validate_a2a_message (req_method rq) (req_params rq) = Ok (Some m) ->
  validate_business_rules m = Ok true ->
  h m (world st) = (Raise e, w) ->
  exists err : JSONRPCErrorResponse,
    handle_request self rq st
    = (Ok (Error err),
       logged (called st (req_method rq) m w) ERROR
         ("Error executing method " +:+ req_method rq +:+ ": " +:+ exn_str e))
    /\ err_code err = -32603
    /\ err_id err = req_id rq
    /\ err_data err = PyStr (exn_str e)
    /\ (forall (request : Request) (raw : string),
          request_text request = Ok raw ->
          validate_jsonrpc_message raw = Ok (ParsedRequest rq) ->
          handle_jsonrpc self request st
          = (Ok (Some (json_http (error_dict err))),
             logged (called (logged st DEBUG ("Received raw message: " +:+ raw))
                       (req_method rq) m w) ERROR
               ("Error executing method " +:+ req_method rq +:+ ": " +:+ exn_str e))).
Proof.
  intros Hreg Hschema Hrules Hcall.
  exists (mkError (-32603) "Internal error" (PyStr (exn_str e)) (req_id rq)).
  split; [by apply (handle_request_raised self rq st h m e w)|]. do 3 (split; [done|]).
  intros request raw Htext Hparse.
  apply (handle_jsonrpc_request self request raw rq st _ (Error _) Htext Hparse).
  - by apply (handle_request_raised self rq _ h m e w).
  - cbn [response_dict]. by rewrite error_dict_serializable.
Qed.


(** C6, as the code has it: a schema-validation failure and a
    business-rule failure both yield the error -32602 with the id of their
    Request and the same message, Invalid params; it is the data field
    whose text differs between the two causes. *)
Theorem invalid_params_causes_differ_in_data
    (self : A2AServer) (rq1 rq2 : JSONRPCRequest) (st1 st2 : state)
    (h1 h2 : handler) (m : A2AMessage) :
  methods self !! req_method rq1 = Some h1 ->
  validate_a2a_message (req_method rq1) (req_params rq1) = Ok None ->
  methods self !! req_method rq2 = Some h2 ->
  validate_a2a_message (req_method rq2) (req_params rq2) = Ok (Some m) ->
  validate_business_rules m = Ok false ->
  exists e1 e2 : JSONRPCErrorResponse,
    handle_request self rq1 st1 = (Ok (Error e1), st1)
    /\ handle_request self rq2 st2 = (Ok (Error e2), st2)
    /\ err_code e1 = -32602 /\ err_code e2 = -32602
    /\ err_id e1 = req_id rq1 /\ err_id e2 = req_id rq2
    /\ err_message e1 = "Invalid params"
    /\ err_message e2 = "Invalid params"
    /\ err_data e1 = PyStr "Invalid A2A message parameters"
    /\ err_data e2 = PyStr "Business rule validation failed"
    /\ err_data e1 <> err_data e2.
Proof.
  intros Hreg1 Hschema1 Hreg2 Hschema2 Hrules.
  exists (mkError (-32602) "Invalid params"
            (PyStr "Invalid A2A message parameters") (req_id rq1)),
         (mkError (-32602) "Invalid params"
            (PyStr "Business rule validation failed") (req_id rq2)).
  split; [by apply (handle_request_schema_mismatch self rq1 st1 h1)|].
  split; [by apply (handle_request_rules_fail self rq2 st2 h2 m)|].
  by repeat split.
Qed.

(** *** Notifications *)

(** The detached task never raises: every path ends in [None]. *)
Lemma handle_notification_returns
    (self : A2AServer) (n : JSONRPCNotification) (st : state) :
  exists st' : state, handle_notification self n st = (Ok tt, st').
Proof.
  run.
  destruct (methods self !! ntf_method n) as [h|]; [|by eexists].
  destruct (validate_a2a_message _ _) as [[m|]|e]; reduce; [|by eexists..].
  destruct (validate_business_rules m) as [[]|e]; reduce; [|by eexists..].
  destruct (h m (world st)) as [[v|e] w]; by eexists.
Qed.

(** The try suite on a payload that parses to a Notification. *)
Lemma handle_jsonrpc_notification
    (self : A2AServer) (request : Request) (raw : string)
    (n : JSONRPCNotification) (st : state) :
  request_text request = Ok raw ->
  validate_jsonrpc_message raw = Ok (ParsedNotification n) ->
  handle_jsonrpc self request st
  = (Ok (Some no_content),
     scheduled (logged st DEBUG ("Received raw message: " +:+ raw)) n).
Proof. intros Htext Hparse. run. rewrite Htext. reduce. by rewrite Hparse. Qed.

(** C2: for a payload that parses to a Notification, the transport-facing
    call returns the no-content response (status 204) and schedules the
    task, whatever the registry, the validators and the handlers are.  The
    task itself returns nothing and never raises; when the method is
    unknown, when the params fail validation, when a validator raises or
    when the handler raises, all it does is add one warning or error
    record to the log. *)
Theorem notification_yields_no_content
    (self : A2AServer) (request : Request) (raw : string)
    (n : JSONRPCNotification) (st : state) :
  request_text request = Ok raw ->
  validate_jsonrpc_message raw = Ok (ParsedNotification n) ->
  handle_jsonrpc self request st
  = (Ok (Some no_content),
     scheduled (logged st DEBUG ("Received raw message: " +:+ raw)) n)
  /\ forall st' : state,
      (exists st'' : state, handle_notification self n st' = (Ok tt, st''))
      /\ (methods self !! ntf_method n = None ->
          handle_notification self n st'
          = (Ok tt, logged st' WARNING
                      ("Notification for unknown method: " +:+ ntf_method n)))
      /\ (forall h : handler, methods self !! ntf_method n = Some h ->
          (forall e, validate_a2a_message (ntf_method n) (ntf_params n) = Raise e ->
             handle_notification self n st'
             = (Ok tt, logged st' ERROR
                         ("Error handling notification " +:+ ntf_method n
                          +:+ ": " +:+ exn_str e)))
          /\ (validate_a2a_message (ntf_method n) (ntf_params n) = Ok None ->
              handle_notification self n st'
              = (Ok tt, logged st' WARNING
                          ("Invalid notification parameters for " +:+ ntf_method n)))
          /\ (forall m, validate_a2a_message (ntf_method n) (ntf_params n) = Ok (Some m) ->
              (forall e, validate_business_rules m = Raise e ->
                 handle_notification self n st'
                 = (Ok tt, logged st' ERROR
                             ("Error handling notification " +:+ ntf_method n
                              +:+ ": " +:+ exn_str e)))
              /\ (validate_business_rules m = Ok false ->
                  handle_notification self n st'
                  = (Ok tt, logged st' WARNING
                              ("Invalid notification parameters for "
                               +:+ ntf_method n)))
              /\ (validate_business_rules m = Ok true ->
                  (forall e w, h m (world st') = (Raise e, w) ->
                     handle_notification self n st'
                     = (Ok tt, logged (called st' (ntf_method n) m w) ERROR
                                 ("Error handling notification " +:+ ntf_method n
                                  +:+ ": " +:+ exn_str e)))
                  /\ (forall v w, h m (world st') = (Ok v, w) ->
                      handle_notification self n st'
                      = (Ok tt, called st' (ntf_method n) m w))))).
Proof.
  intros Htext Hparse.
  split; [by apply handle_jsonrpc_notification|].
  intros st'. split; [apply handle_notification_returns|].
  split; [intros Hreg; run; by rewrite Hreg|].
  intros h Hreg.
  split; [intros e Hschema; run; by rewrite Hreg, Hschema|].
  split; [intros Hschema; run; by rewrite Hreg, Hschema|].
  intros m Hschema.
  split; [intros e Hrules; run; rewrite Hreg, Hschema; reduce; by rewrite Hrules|].
  split; [intros Hrules; run; rewrite Hreg, Hschema; reduce; by rewrite Hrules|].
  intros Hrules.
  split; intros x w Hcall; run; rewrite Hreg, Hschema; reduce;
    rewrite Hrules; reduce; by rewrite Hcall.
Qed.

(** *** The transport-facing call *)

(** The [except] suite always returns a response: the error it renders
    carries a string as data. *)
Lemma handle_jsonrpc_except_returns (e : exn) (st : state) :
  _handle_jsonrpc_except e st
  = (Ok (Some (json_http (error_dict
                 (mkError (-32603) "Internal error" (PyStr (exn_str e)) IdNone)))),
     logged st ERROR ("Error handling request: " +:+ exn_str e)).
Proof.
  unfold _handle_jsonrpc_except, bind, logger. reduce.
  by rewrite json_response_own_error.
Qed.

(** C7: [_handle_jsonrpc] never raises, on any request, registry,
    validators and handlers; and whenever its [try] suite raises [e], it
    returns the Internal error response, code -32603, with a null id and
    [str(e)] as data, after logging the failure. *)
Theorem handle_jsonrpc_never_raises
    (self : A2AServer) (request : Request) (st : state) :
  (exists (r : option Response) (st' : state),
      handle_jsonrpc self request st = (Ok r, st'))
  /\ (forall (e : exn) (st1 : state),
        handle_jsonrpc_try self request st = (Raise e, st1) ->
        handle_jsonrpc self request st
        = (Ok (Some (json_http (error_dict
                       (mkError (-32603) "Internal error"
                          (PyStr (exn_str e)) IdNone)))),
           logged st1 ERROR ("Error handling request: " +:+ exn_str e))).
Proof.
  unfold _handle_jsonrpc, try_except.
  destruct (handle_jsonrpc_try self request st) as [[r|e] st1].
  - split; [by eexists _, _|]. intros e' st1' [=].
  - rewrite handle_jsonrpc_except_returns.
    split; [by eexists _, _|]. by intros e' st1' [= <- <-].
Qed.

(** When the [try] suite returns, [None] comes from the fall-through
    alone. *)
Lemma handle_jsonrpc_try_none
    (self : A2AServer) (request : Request) (st st' : state) :
  handle_jsonrpc_try self request st = (Ok None, st') ->
  exists raw v,
    request_text request = Ok raw
    /\ validate_jsonrpc_message raw = Ok (ParsedOther v).
Proof.
  unfold _handle_jsonrpc_try, bind, lift, logger, create_task, ret, _json_response.
  destruct (request_text request) as [raw|e]; [|done]. reduce.
  destruct (validate_jsonrpc_message raw) as [[err|n|rq|v]|e] eqn:Hparse;
    reduce; [| |  | |done].
  - unfold lift. by destruct (json_dumps (error_dict err)).
  - done.
  - destruct (handle_request self rq _) as [[resp|e] st1]; [|done].
    unfold lift. by destruct (json_dumps (response_dict resp)).
  - intros _. by exists raw, v.
Qed.

(** C9: when the envelope parser returns an object that is none of the
    three variants, [_handle_jsonrpc] returns [None], neither a response
    nor the no-content sentinel; and that is the only way it returns
    [None]: on every other payload the caller gets a response. *)
Theorem handle_jsonrpc_falls_through
    (self : A2AServer) (request : Request) (st : state) :
  (forall raw v,
      request_text request = Ok raw ->
      validate_jsonrpc_message raw = Ok (ParsedOther v) ->
      handle_jsonrpc self request st
      = (Ok None, logged st DEBUG ("Received raw message: " +:+ raw)))
  /\ ((handle_jsonrpc self request st).1 = Ok None <->
      exists raw v,
        request_text request = Ok raw
        /\ validate_jsonrpc_message raw = Ok (ParsedOther v)).
Proof.
  assert (Hfall : forall raw v,
    request_text request = Ok raw ->
    validate_jsonrpc_message raw = Ok (ParsedOther v) ->
    handle_jsonrpc self request st
    = (Ok None, logged st DEBUG ("Received raw message: " +:+ raw))).
  { intros raw v Htext Hparse. run. rewrite Htext. reduce. by rewrite Hparse. }
  split; [done|]. split.
  - unfold _handle_jsonrpc, try_except.
    destruct (handle_jsonrpc_try self request st) as [[[r|]|e] st1] eqn:Htry.
    + done.
    + intros _. by eapply handle_jsonrpc_try_none.
    + by rewrite handle_jsonrpc_except_returns.
  - intros (raw & v & Htext & Hparse). by rewrite (Hfall raw v).
Qed.

(** *** Classification *)

Lemma extend_id (st : state) : extend st (world st) [] [] [] = st.
Proof. destruct st. unfold extend. simpl. by rewrite !app_nil_r. Qed.

Lemma logged_extend (st : state) lvl msg :
  logged st lvl msg = extend st (world st) [mkLog lvl msg] [] [].
Proof. unfold logged, extend. by rewrite !app_nil_r. Qed.

Lemma called_extend (st : state) method m w :
  called st method m w = extend st w [] [] [(method, m)].
Proof. unfold called, extend. by rewrite !app_nil_r. Qed.

Lemma scheduled_extend (st : state) n :
  scheduled st n = extend st (world st) [] [n] [].
Proof. unfold scheduled, extend. by rewrite !app_nil_r. Qed.

Lemma extend_extend (st : state) w l t c w' l' t' c' :
  extend (extend st w l t c) w' l' t' c' = extend st w' (l ++ l') (t ++ t') (c ++ c').
Proof. unfold extend. simpl. by rewrite !app_assoc. Qed.

(** A run that made a handler call is seen as such; one that made none
    shows its outcome and its log records. *)
Lemma classify_extend {A} (st : state) (r : result A) w l t c :
  classify st (r, extend st w l t c)
  = match c with
    | [] => Classified r l
    | _ :: _ => ReachedInvocation
    end.
Proof.
  unfold classify, extend. simpl. destruct c as [|x c].
  - by rewrite app_nil_r, Nat.eqb_refl, drop_app_length.
  - rewrite length_app. simpl.
    destruct (Nat.eqb_spec (length (invoked st) + S (length c)) (length (invoked st)));
      [lia|done].
Qed.

(** Steps 2 to 4 on a Request: either every run ends before the handler
    with one and the same error and log record, or every run calls the
    handler on one and the same message. *)
Lemma handle_request_stage (self : A2AServer) (rq : JSONRPCRequest) :
  (exists err l, forall st : state,
      handle_request self rq st = (Ok (Error err), extend st (world st) l [] []))
  \/ (exists c, forall st : state, exists resp w l,
        handle_request self rq st = (Ok resp, extend st w l [] [c])).
Proof.
  destruct (methods self !! req_method rq) as [h|] eqn:Hreg.
  - destruct (validate_a2a_message (req_method rq) (req_params rq))
      as [[m|]|e] eqn:Hschema.
    + destruct (validate_business_rules m) as [[]|e] eqn:Hrules.
      * right. exists (req_method rq, m). intros st.
        destruct (h m (world st)) as [[v|e] w] eqn:Hcall.
        -- rewrite (handle_request_returned self rq st h m v w); [|done..].
           eexists _, w, []. by rewrite called_extend.
        -- rewrite (handle_request_raised self rq st h m e w); [|done..].
           eexists _, w, _.
           by rewrite called_extend, logged_extend, extend_extend.
      * left. eexists _, []. intros st.
        rewrite extend_id. by eapply handle_request_rules_fail.
      * left.
        exists (mkError (-32603) "Internal error" (PyStr (exn_str e)) (req_id rq)).
        exists [mkLog ERROR ("Error executing method " +:+ req_method rq
                             +:+ ": " +:+ exn_str e)].
        intros st. rewrite <- logged_extend.
        run. rewrite Hreg, Hschema. reduce. by rewrite Hrules.
    + left. eexists _, []. intros st.
      rewrite extend_id. by eapply handle_request_schema_mismatch.
    + left.
      exists (mkError (-32603) "Internal error" (PyStr (exn_str e)) (req_id rq)).
      exists [mkLog ERROR ("Error executing method " +:+ req_method rq
                           +:+ ": " +:+ exn_str e)].
      intros st. rewrite <- logged_extend.
      run. by rewrite Hreg, Hschema.
  - left.
    exists (mkError (-32601) "Method not found"
              (PyStr ("Method '" +:+ req_method rq +:+ "' not found")) (req_id rq)).
    exists []. intros st. rewrite extend_id. by apply handle_request_unknown.
Qed.

(** The same for the detached task of a Notification. *)
Lemma handle_notification_stage (self : A2AServer) (n : JSONRPCNotification) :
  (exists l, forall st : state,
      handle_notification self n st = (Ok tt, extend st (world st) l [] []))
  \/ (exists c, forall st : state, exists w l,
        handle_notification self n st = (Ok tt, extend st w l [] [c])).
Proof.
  destruct (methods self !! ntf_method n) as [h|] eqn:Hreg.
  - destruct (validate_a2a_message (ntf_method n) (ntf_params n))
      as [[m|]|e] eqn:Hschema.
    + destruct (validate_business_rules m) as [[]|e] eqn:Hrules.
      * right. exists (ntf_method n, m). intros st.
        destruct (h m (world st)) as [[v|e] w] eqn:Hcall.
        -- exists w, []. run. rewrite Hreg, Hschema. reduce.
           rewrite Hrules. reduce. rewrite Hcall. same_state.
        -- exists w. eexists [_]. run. rewrite Hreg, Hschema. reduce.
           rewrite Hrules. reduce. rewrite Hcall. same_state.
      * left. eexists [_]. intros st. run. rewrite Hreg, Hschema. reduce.
        rewrite Hrules. same_state.
      * left. eexists [_]. intros st. run. rewrite Hreg, Hschema. reduce.
        rewrite Hrules. same_state.
    + left. eexists [_]. intros st. run. rewrite Hreg, Hschema. same_state.
    + left. eexists [_]. intros st. run. rewrite Hreg, Hschema. same_state.
  - left. eexists [_]. intros st. run. rewrite Hreg. same_state.
Qed.

Lemma json_response_run (doc : pyval) (st : state) :
  _json_response doc st
  = (match json_dumps doc with
     | Ok d => Ok (json_http d)
     | Raise e => Raise e
     end, st).
Proof. run. by destruct (json_dumps doc). Qed.

(** Steps 1 to 4 on a payload: either every run ends without a handler
    call, with one and the same outcome, log records and scheduled tasks,
    or every run calls a handler on one and the same message. *)
Lemma handle_jsonrpc_stage (self : A2AServer) (request : Request) :
  (exists r l t, forall st : state,
      handle_jsonrpc self request st = (Ok r, extend st (world st) l t []))
  \/ (exists c, forall st : state, exists r w l,
        handle_jsonrpc self request st = (Ok r, extend st w l [] [c])).
Proof.
  destruct (request_text request) as [raw|e] eqn:Htext.
  2: { left. eexists _, [_], []. intros st. run. rewrite Htext. same_state. }
  destruct (validate_jsonrpc_message raw) as [[err|n|rq|v]|e] eqn:Hparse.
  - left. destruct (json_dumps (error_dict err)) as [d|e] eqn:Hdumps.
    + eexists _, [_], []. intros st. run. rewrite Htext. reduce.
      rewrite Hparse. unfold lift. rewrite Hdumps. same_state.
    + eexists _, [_; _], []. intros st. run. rewrite Htext. reduce.
      rewrite Hparse. unfold lift. rewrite Hdumps. same_state.
  - left. eexists _, [_], [n]. intros st.
    rewrite (handle_jsonrpc_notification _ _ _ _ _ Htext Hparse). same_state.
  - destruct (handle_request_stage self rq) as [(err & l & Hrun)|(c & Hrun)].
    + left. destruct (json_dumps (error_dict err)) as [d|e] eqn:Hdumps.
      * eexists _, (_ :: l), []. intros st.
        unfold _handle_jsonrpc, try_except.
        rewrite (handle_jsonrpc_try_request _ _ _ _ _ Htext Hparse).
        unfold bind. rewrite Hrun, json_response_run. cbn [response_dict].
        rewrite Hdumps. rewrite logged_extend, extend_extend. same_state.
      * eexists _, (_ :: (l ++ [_])%list), []. intros st.
        unfold _handle_jsonrpc, try_except.
        rewrite (handle_jsonrpc_try_request _ _ _ _ _ Htext Hparse).
        unfold bind. rewrite Hrun, json_response_run. cbn [response_dict].
        rewrite Hdumps, handle_jsonrpc_except_returns.
        rewrite !logged_extend, !extend_extend. same_state.
    + right. exists c. intros st.
      unfold _handle_jsonrpc, try_except.
      rewrite (handle_jsonrpc_try_request _ _ _ _ _ Htext Hparse).
      unfold bind.
      destruct (Hrun (logged st DEBUG ("Received raw message: " +:+ raw)))
        as (resp & w & l & ->).
      rewrite json_response_run.
      destruct (json_dumps (response_dict resp)) as [d|e].
      * eexists _, w, (_ :: l). rewrite logged_extend, extend_extend. same_state.
      * rewrite handle_jsonrpc_except_returns.
        eexists _, w, (_ :: (l ++ [_])%list).
        rewrite !logged_extend, !extend_extend. same_state.
  - left. eexists _, [_], []. intros st. run. rewrite Htext. reduce.
    rewrite Hparse. same_state.
  - left. eexists _, [_; _], []. intros st. run. rewrite Htext. reduce.
    rewrite Hparse. same_state.
Qed.

(** C8: the dispatch decision does not depend on the run.  Two calls of
    [_handle_jsonrpc] on the same request against the same registry, from
    any two states (the handlers may have changed the world in between),
    either both reach a handler invocation, or both end before it with the
    same response (hence the same error code and id) and the same log
    records; and so do two runs of the task of a Notification. *)
Theorem dispatch_classification_deterministic
    (self : A2AServer) (request : Request) (n : JSONRPCNotification)
    (st1 st2 : state) :
  classify st1 (handle_jsonrpc self request st1)
  = classify st2 (handle_jsonrpc self request st2)
  /\ classify st1 (handle_notification self n st1)
     = classify st2 (handle_notification self n st2).
Proof.
  split.
  - destruct (handle_jsonrpc_stage self request)
      as [(r & l & t & Hrun)|(c & Hrun)].
    + by rewrite !Hrun, !classify_extend.
    + destruct (Hrun st1) as (r1 & w1 & l1 & ->).
      destruct (Hrun st2) as (r2 & w2 & l2 & ->).
      by rewrite !classify_extend.
  - destruct (handle_notification_stage self n) as [(l & Hrun)|(c & Hrun)].
    + by rewrite !Hrun, !classify_extend.
    + destruct (Hrun st1) as (w1 & l1 & ->).
      destruct (Hrun st2) as (w2 & l2 & ->).
      by rewrite !classify_extend.
Qed.

(** *** The constructor *)

(** Whatever the arguments, an instance carries them as they were
    passed. *)
Lemma init_attributes (env : gmap string string)
    (host_arg : option string) (port_arg : option Z) (srv : A2AServer) :
  init env host_arg port_arg = Ok srv ->
  host srv = host_arg /\ port srv = port_arg /\ methods srv = ∅.
Proof.
  unfold __init__.
  destruct (int_or _ _) as [p|e]; [|done].
  by intros [= <-].
Qed.

(** C10: constructed without host and port, the instance has [None] for
    both, whatever the environment holds: the fallbacks of lines 26-27 are
    overwritten by lines 28-29.  The one way not to get an instance is an
    A2A_PORT that [int] rejects, on which line 27 raises ValueError. *)
Theorem init_without_arguments (env : gmap string string) :
  match init env None None with
  | Ok srv =>
      host srv = None /\ port srv = None
      /\ is_Some (py_int (getenv env "A2A_PORT" "8080"))
  | Raise e =>
      exn_class e = "ValueError"
      /\ py_int (getenv env "A2A_PORT" "8080") = None
  end.
Proof.
  unfold __init__, int_or, int_of_str.
  by destruct (py_int (getenv env "A2A_PORT" "8080")) as [p|].
Qed.

(** *** Every path of [_handle_request] *)

(** X1: [_handle_request] never raises and answers every Request with
    exactly one response object, whose id is the id of the Request, whatever
    the registry, the validators and the handler do; an error it returns has
    one of the codes -32601, -32602 and -32603, and no task is scheduled. *)
Theorem handle_request_always_answers
    (self : A2AServer) (rq : JSONRPCRequest) (st : state) :
  exists (response : rpc_response) (st' : state),
    handle_request self rq st = (Ok response, st')
    /\ response_id response = req_id rq
    /\ tasks st' = tasks st
    /\ match response with
       | Success _ => True
       | Error e =>
           err_code e = -32601 \/ err_code e = -32602 \/ err_code e = -32603
       end.
Proof.
  request_paths validate_a2a_message validate_business_rules self rq st;
    eexists _, _; (split; [reflexivity|]); cbn; auto.
Qed.

(** X2: when [_handle_request] answers with the error -32601 or -32602, it
    has changed nothing: no handler ran, the world is as before, and not
    even a log record was written. *)
Theorem handle_request_rejection_is_silent
    (self : A2AServer) (rq : JSONRPCRequest) (st st' : state)
    (e : JSONRPCErrorResponse) :
  handle_request self rq st = (Ok (Error e), st') ->
  err_code e = -32601 \/ err_code e = -32602 ->
  st' = st.
Proof.
  request_paths validate_a2a_message validate_business_rules self rq st;
    intros [= <- <-]; cbn; try done; by intros [[=]|[=]].
Qed.

(** X3: one run of [_handle_request] calls at most one handler, once: the
    one registered under the method of the Request, on the message the
    validator built from its params, and only when the business rules
    returned true.  Otherwise the world is left as it was. *)
Theorem handle_request_calls_at_most_once
    (self : A2AServer) (rq : JSONRPCRequest) (st : state) :
  (invoked (handle_request self rq st).2 = invoked st
   /\ world (handle_request self rq st).2 = world st)
  \/ exists (h : handler) (m : A2AMessage),
      methods self !! req_method rq = Some h
      /\ validate_a2a_message (req_method rq) (req_params rq) = Ok (Some m)
      /\ validate_business_rules m = Ok true
      /\ invoked (handle_request self rq st).2
         = (invoked st ++ [(req_method rq, m)])%list
      /\ world (handle_request self rq st).2 = (h m (world st)).2.
Proof.
  request_paths validate_a2a_message validate_business_rules self rq st;
    try (left; done);
    right; eexists _, _; rewrite Hcall; by repeat split.
Qed.


(** *** Registration and dispatch *)

(** [_handle_request] and the task of a Notification look at the server
    through the entry of one method only. *)
Lemma handle_request_local
    (self1 self2 : A2AServer) (rq : JSONRPCRequest) (st : state) :
  methods self1 !! req_method rq = methods self2 !! req_method rq ->
  handle_request self1 rq st = handle_request self2 rq st.
Proof. intros Hsame. unfold _handle_request. by rewrite Hsame. Qed.

Lemma handle_notification_local
    (self1 self2 : A2AServer) (n : JSONRPCNotification) (st : state) :
  methods self1 !! ntf_method n = methods self2 !! ntf_method n ->
  handle_notification self1 n st = handle_notification self2 n st.
Proof. intros Hsame. unfold _handle_notification. by rewrite Hsame. Qed.

(** X5: [register_method] changes the dispatch of its own method name only.
    Requests and notifications for every other method are handled exactly
    as before; those for the registered name are handled as by a server
    whose registry holds the new handler alone, so a handler registered
    earlier under that name is never called again. *)
Theorem register_method_dispatch
    (self : A2AServer) (name : string) (h : handler) (st0 : state) :
  exists self' : A2AServer,
    register_method self name h st0
    = (Ok self', logged st0 INFO ("Registered method: " +:+ name))
    /\ (forall (rq : JSONRPCRequest) (st : state),
          req_method rq <> name ->
          handle_request self' rq st = handle_request self rq st)
    /\ (forall (n : JSONRPCNotification) (st : state),
          ntf_method n <> name ->
          handle_notification self' n st = handle_notification self n st)
    /\ (forall (rq : JSONRPCRequest) (st : state),
          req_method rq = name ->
          handle_request self' rq st
          = handle_request (set_methods blank {[name := h]}) rq st)
    /\ (forall (n : JSONRPCNotification) (st : state),
          ntf_method n = name ->
          handle_notification self' n st
          = handle_notification (set_methods blank {[name := h]}) n st).
Proof.
  exists (set_methods self (<[name := h]> (methods self))).
  split; [reflexivity|].
  repeat split.
  - intros rq st Hother. apply handle_request_local.
    cbn [methods set_methods]. by rewrite lookup_insert_ne.
  - intros n st Hother. apply handle_notification_local.
    cbn [methods set_methods]. by rewrite lookup_insert_ne.
  - intros rq st Hname. apply handle_request_local.
    cbn [methods set_methods].
    by rewrite Hname, lookup_insert_eq, lookup_singleton_eq.
  - intros n st Hname. apply handle_notification_local.
    cbn [methods set_methods].
    by rewrite Hname, lookup_insert_eq, lookup_singleton_eq.
Qed.

(** X6: a server as [__init__] leaves it knows no method: it answers every
    Request with Method not found under the id of the Request, and drops
    every Notification with a warning, without consulting a validator. *)
Theorem fresh_server_knows_no_method
    (env : gmap string string) (host_arg : option string) (port_arg : option Z)
    (srv : A2AServer) :
  init env host_arg port_arg = Ok srv ->
  (forall (rq : JSONRPCRequest) (st : state),
      handle_request srv rq st
      = (Ok (Error (mkError (-32601) "Method not found"
                      (PyStr ("Method '" +:+ req_method rq +:+ "' not found"))
                      (req_id rq))), st))
  /\ (forall (n : JSONRPCNotification) (st : state),
        handle_notification srv n st
        = (Ok tt, logged st WARNING
                    ("Notification for unknown method: " +:+ ntf_method n))).
Proof.
  intros Hinit. destruct (init_attributes _ _ _ _ Hinit) as (_ & _ & Hempty).
  split.
  - intros rq st. apply handle_request_unknown. by rewrite Hempty.
  - intros n st. run. by rewrite Hempty, lookup_empty.
Qed.

(** X7: the environment never reaches the attributes of the server.  With a
    port that is not 0, [__init__] returns an instance holding the raw
    arguments, whatever A2A_HOST and A2A_PORT say; with no port, or port 0,
    it does the same when A2A_PORT (8080 by default) reads as an integer,
    and raises ValueError when it does not, although that value would not
    be kept. *)
Theorem init_keeps_arguments
    (env : gmap string string) (host_arg : option string) (port_arg : option Z) :
  init env host_arg port_arg
  = if match port_arg with
       | Some p => negb (Z.eqb p 0)
       | None => false
       end
       || bool_decide (is_Some (py_int (getenv env "A2A_PORT" "8080")))
    then Ok (mkServer host_arg port_arg
               [("POST", "/jsonrpc", "_handle_jsonrpc");
                ("GET", "/health", "_handle_health")] ∅)
    else Raise (Exn "ValueError"
                  ("invalid literal for int() with base 10: '"
                   +:+ getenv env "A2A_PORT" "8080" +:+ "'")).
Proof.
  unfold __init__, int_or, int_of_str.
  destruct port_arg as [p|]; [destruct (Z.eqb_spec p 0)|]; cbn [negb orb];
    try done;
    by destruct (py_int (getenv env "A2A_PORT" "8080")).
Qed.

(** *** What the transport sends *)

Lemma handle_request_returns
    (self : A2AServer) (rq : JSONRPCRequest) (st : state) :
  exists (response : rpc_response) (st' : state),
    handle_request self rq st = (Ok response, st').
Proof.
  request_paths validate_a2a_message validate_business_rules self rq st;
    by eexists _, _.
Qed.

Lemma json_dumps_inv (doc d : pyval) :
  json_dumps doc = Ok d -> d = doc /\ json_serializable doc = true.
Proof.
  unfold json_dumps. destruct (json_serializable doc); [|done].
  by intros [= <-].
Qed.

Lemma json_dumps_raises (doc : pyval) :
  json_serializable doc = false ->
  exists e, json_dumps doc = Raise e /\ exn_class e = "TypeError".
Proof. unfold json_dumps. intros ->. by eexists. Qed.

(** X8: whatever comes in, [_handle_jsonrpc] answers with status 204 and no
    body (a Notification), or with status 200, content type
    application/json and a body that is a serializable document, errors
    included; the one exception is the fall-through, which returns no
    response at all. *)
Theorem handle_jsonrpc_response_shape
    (self : A2AServer) (request : Request) (st : state) :
  exists (r : option Response) (st' : state),
    handle_jsonrpc self request st = (Ok r, st')
    /\ match r with
       | None => True
       | Some response =>
           (response = no_content
            /\ exists raw n,
                request_text request = Ok raw
                /\ validate_jsonrpc_message raw = Ok (ParsedNotification n))
           \/ (exists doc : pyval,
                 response = json_http doc
                 /\ json_serializable doc = true
                 /\ status response = 200
                 /\ content_type response = Some "application/json")
       end.
Proof.
  unfold _handle_jsonrpc, try_except.
  destruct (handle_jsonrpc_try self request st) as [[[response|]|e] st1] eqn:Htry.
  - eexists _, _. split; [reflexivity|]. revert Htry.
    unfold _handle_jsonrpc_try, bind, lift, logger, create_task, ret.
    destruct (request_text request) as [raw|e] eqn:Htext; [|done]. reduce.
    destruct (validate_jsonrpc_message raw) as [[err|n|rq|v]|e] eqn:Hparse;
      reduce; [| | |done..].
    + rewrite json_response_run.
      destruct (json_dumps (error_dict err)) as [d|e] eqn:Hdumps; [|done].
      destruct (json_dumps_inv _ _ Hdumps) as [-> Hser].
      intros [= <- _]. right. by eexists.
    + intros [= <- _]. left. split; [done|]. by exists raw, n.
    + destruct (handle_request_returns self rq
                  {| world := world st;
                     log := log st ++ [mkLog DEBUG ("Received raw message: " +:+ raw)];
                     tasks := tasks st; invoked := invoked st |})
        as (resp & st2 & ->).
      rewrite json_response_run.
      destruct (json_dumps (response_dict resp)) as [d|e] eqn:Hdumps; [|done].
      destruct (json_dumps_inv _ _ Hdumps) as [-> Hser].
      intros [= <- _]. right. by eexists.
  - by eexists _, _.
  - rewrite handle_jsonrpc_except_returns. eexists _, _. split; [reflexivity|].
    right. eexists. split; [reflexivity|].
    by rewrite error_dict_serializable.
Qed.

(** X9: an error object that the envelope parser returns goes back to the
    caller as it is, when its data serializes: the registry is not
    consulted (the statement holds for every server), no handler runs and
    nothing is scheduled. *)
Theorem handle_jsonrpc_envelope_error
    (self : A2AServer) (request : Request) (raw : string)
    (e : JSONRPCErrorResponse) (st : state) :
  request_text request = Ok raw ->
  validate_jsonrpc_message raw = Ok (ParsedError e) ->
  json_serializable (err_data e) = true ->
  handle_jsonrpc self request st
  = (Ok (Some (json_http (error_dict e))),
     logged st DEBUG ("Received raw message: " +:+ raw)).
Proof.
  intros Htext Hparse Hser.
  unfold _handle_jsonrpc, try_except, _handle_jsonrpc_try, bind, lift, logger, ret.
  rewrite Htext. reduce. rewrite Hparse. reduce.
  rewrite json_response_ok; [done|]. by rewrite error_dict_serializable.
Qed.

(** X10: when the value a handler returned does not serialize, the caller
    still gets a response, but not under its id: the handler has run, and
    the TypeError of [json.dumps] comes back as Internal error, code
    -32603, with a null id. *)
Theorem handle_jsonrpc_unserializable_result
    (self : A2AServer) (request : Request) (raw : string)
    (rq : JSONRPCRequest) (st : state)
    (h : handler) (m : A2AMessage) (v : pyval) (w : World) :
  request_text request = Ok raw ->
  validate_jsonrpc_message raw = Ok (ParsedRequest rq) ->
  methods self !! req_method rq = Some h ->
  validate_a2a_message (req_method rq) (req_params rq) = Ok (Some m) ->
  validate_business_rules m = Ok true ->
  h m (world st) = (Ok v, w) ->
  json_serializable v = false ->
  exists e : exn,
    json_dumps (success_dict (mkSuccess v (req_id rq))) = Raise e
    /\ exn_class e = "TypeError"
    /\ handle_jsonrpc self request st
       = (Ok (Some (json_http (error_dict
                      (mkError (-32603) "Internal error" (PyStr (exn_str e)) IdNone)))),
          logged (called (logged st DEBUG ("Received raw message: " +:+ raw))
                    (req_method rq) m w)
            ERROR ("Error handling request: " +:+ exn_str e)).
Proof.
  intros Htext Hparse Hreg Hschema Hrules Hcall Hser.
  destruct (json_dumps_raises (success_dict (mkSuccess v (req_id rq))))
    as (e & Hdumps & Hclass); [by rewrite success_dict_serializable|].
  exists e. do 2 (split; [done|]).
  unfold _handle_jsonrpc, try_except.
  rewrite (handle_jsonrpc_try_request _ _ _ _ _ Htext Hparse). unfold bind.
  rewrite (handle_request_returned self rq _ h m v w); [|done..].
  rewrite json_response_run. cbn [response_dict]. rewrite Hdumps.
  by rewrite handle_jsonrpc_except_returns.
Qed.

(** *** The health endpoint *)

Lemma names_serializable (names : list string) :
  forallb json_serializable (map PyStr names) = true.
Proof. by induction names. Qed.

(** X11: [_handle_health] never raises and leaves the state alone; its
    body says healthy and lists the registered method names, each once: a
    name is listed exactly when a Request for it would find a handler. *)
Theorem handle_health_lists_registry (self : A2AServer) (st : state) :
  exists names : list string,
    _handle_health self st
    = (Ok (json_http (PyDict [("status", PyStr "healthy");
                              ("methods", PyList (map PyStr names))])), st)
    /\ NoDup names
    /\ length names = size (methods self)
    /\ forall name : string, name ∈ names <-> is_Some (methods self !! name).
Proof.
  exists (map fst (map_to_list (methods self))).
  split; [|split; [|split]].
  - unfold _handle_health. apply json_response_ok.
    simpl. by rewrite names_serializable.
  - apply NoDup_fst_map_to_list.
  - by rewrite length_map, length_map_to_list.
  - intros name. rewrite list_elem_of_fmap. split.
    + intros ([k h] & -> & Hin). apply elem_of_map_to_list in Hin. by eexists.
    + intros [h Hh]. exists (name, h). split; [done|].
      by apply elem_of_map_to_list.
Qed.

End Properties.

(** ** The properties at the small instance *)

Module ToyFacts.

Import Toy.

(** Scenario A: PING is registered and returns {pong: true}; the request
    with id 1 is answered by the success object with that result and id. *)
Lemma handle_request_success_witness :
  handle_request server ping_request st0
  = (Ok (Success (create_success_response (PyDict [("pong", PyBool true)]) (IdInt 1))),
     called st0 "PING" (PyDict []) 1%nat)
  /\ handle_jsonrpc server (mkHttpRequest (Ok "ping 1")) st0
     = (Ok (Some (json_http
                    (PyDict [("jsonrpc", PyStr "2.0");
                             ("result", PyDict [("pong", PyBool true)]);
                             ("id", PyInt 1)]))),
        called (logged st0 DEBUG "Received raw message: ping 1")
          "PING" (PyDict []) 1%nat).
Proof.
  destruct (handle_request_success validate_jsonrpc_message validate_a2a_message
              validate_business_rules server ping_request st0 ping (PyDict [])
              (PyDict [("pong", PyBool true)]) 1%nat
              eq_refl eq_refl eq_refl eq_refl)
    as (Hrun & _ & _ & Htransport).
  split; [exact Hrun|].
  exact (Htransport (mkHttpRequest (Ok "ping 1")) "ping 1" eq_refl eq_refl eq_refl).
Defined.

(** Scenario B: method UNKNOWN, id 2. *)
Lemma handle_request_method_not_found_witness :
  exists e : JSONRPCErrorResponse,
    handle_request server unknown_request st0 = (Ok (Error e), st0)
    /\ err_code e = -32601
    /\ err_id e = IdInt 2
    /\ err_message e = "Method not found"
    /\ err_data e = PyStr "Method 'UNKNOWN' not found"
    /\ handle_jsonrpc server (mkHttpRequest (Ok "unknown 2")) st0
       = (Ok (Some (json_http (error_dict e))),
          logged st0 DEBUG "Received raw message: unknown 2").
Proof.
  destruct (handle_request_method_not_found validate_jsonrpc_message
              validate_a2a_message validate_business_rules server
              unknown_request st0 eq_refl)
    as (e & Hrun & Hcode & Hid & Hmessage & Hdata & Htransport).
  exists e. do 5 (split; [assumption|]).
  exact (Htransport (mkHttpRequest (Ok "unknown 2")) "unknown 2" eq_refl eq_refl).
Defined.

(** A handler that raises. *)
Lemma handle_request_handler_raises_witness :
  exists err : JSONRPCErrorResponse,
    handle_request server (mkRequest "BOOM" (PyDict []) (IdStr "a")) st0
    = (Ok (Error err),
       logged (called st0 "BOOM" (PyDict []) 1%nat) ERROR
         "Error executing method BOOM: boom")
    /\ err_code err = -32603
    /\ err_id err = IdStr "a"
    /\ err_data err = PyStr "boom".
Proof.
  destruct (handle_request_handler_raises validate_jsonrpc_message
              validate_a2a_message validate_business_rules server
              (mkRequest "BOOM" (PyDict []) (IdStr "a")) st0 boom (PyDict [])
              (Exn "RuntimeError" "boom") 1%nat
              eq_refl eq_refl eq_refl eq_refl)
    as (err & Hrun & Hcode & Hid & Hdata & _).
  exists err. by repeat split.
Defined.



(** The two ways to Invalid params: params that are not an object, and an
  object with the forbidden key. *)
Lemma invalid_params_causes_differ_in_data_witness :
exists e1 e2 : JSONRPCErrorResponse,
  handle_request server (mkRequest "PING" (PyInt 3) (IdInt 8)) st0
  = (Ok (Error e1), st0)
  /\ handle_request server
       (mkRequest "PING" (PyDict [("forbidden", PyNone)]) (IdInt 9)) st0
     = (Ok (Error e2), st0)
  /\ err_code e1 = -32602 /\ err_code e2 = -32602
  /\ err_id e1 = IdInt 8 /\ err_id e2 = IdInt 9
  /\ err_message e1 = "Invalid params"
  /\ err_message e2 = "Invalid params"
  /\ err_data e1 = PyStr "Invalid A2A message parameters"
  /\ err_data e2 = PyStr "Business rule validation failed"
  /\ err_data e1 <> err_data e2.
Proof.
apply (invalid_params_causes_differ_in_data validate_a2a_message
         validate_business_rules server
         (mkRequest "PING" (PyInt 3) (IdInt 8))
         (mkRequest "PING" (PyDict [("forbidden", PyNone)]) (IdInt 9))
         st0 st0 ping ping (PyDict [("forbidden", PyNone)]));
  reflexivity.
Defined.

(** C6 as stated fails: the two errors carry the same message text. *)
Lemma invalid_params_messages_coincide :
~ (forall (World A2AMessage : Type)
     (validate_a2a_message : string -> pyval -> result (option A2AMessage))
     (validate_business_rules : A2AMessage -> result bool)
     (self : @A2AServer World A2AMessage) (rq1 rq2 : JSONRPCRequest)
     (st1 st2 : @state World A2AMessage)
     (h1 h2 : @handler World A2AMessage) (m : A2AMessage),
     methods self !! req_method rq1 = Some h1 ->
     validate_a2a_message (req_method rq1) (req_params rq1) = Ok None ->
     methods self !! req_method rq2 = Some h2 ->
     validate_a2a_message (req_method rq2) (req_params rq2) = Ok (Some m) ->
     validate_business_rules m = Ok false ->
     exists e1 e2 st1' st2',
       _handle_request validate_a2a_message validate_business_rules self rq1 st1
       = (Ok (Error e1), st1')
       /\ _handle_request validate_a2a_message validate_business_rules self rq2 st2
          = (Ok (Error e2), st2')
       /\ err_code e1 = -32602 /\ err_code e2 = -32602
       /\ err_id e1 = req_id rq1 /\ err_id e2 = req_id rq2
       /\ err_message e1 <> err_message e2).
Proof.
intros claim.
destruct (claim World A2AMessage validate_a2a_message validate_business_rules
            server
            (mkRequest "PING" (PyInt 3) (IdInt 8))
            (mkRequest "PING" (PyDict [("forbidden", PyNone)]) (IdInt 9))
            st0 st0 ping ping (PyDict [("forbidden", PyNone)])
            eq_refl eq_refl eq_refl eq_refl eq_refl)
  as (e1 & e2 & st1' & st2' & Hrun1 & Hrun2 & _ & _ & _ & _ & Hdiff).
vm_compute in Hrun1. vm_compute in Hrun2.
injection Hrun1 as <- _. injection Hrun2 as <- _.
by apply Hdiff.
Qed.

(** Scenario D: the notification PING.  The transport gets the no-content
  response, and the task, once run, calls the handler once. *)
Lemma notification_yields_no_content_witness :
handle_jsonrpc server (mkHttpRequest (Ok "ping")) st0
= (Ok (Some no_content),
   scheduled (logged st0 DEBUG "Received raw message: ping") ping_notification)
/\ handle_notification server ping_notification
     (scheduled (logged st0 DEBUG "Received raw message: ping") ping_notification)
   = (Ok tt,
      called (scheduled (logged st0 DEBUG "Received raw message: ping")
                ping_notification) "PING" (PyDict []) 1%nat).
Proof.
destruct (notification_yields_no_content validate_jsonrpc_message
            validate_a2a_message validate_business_rules server
            (mkHttpRequest (Ok "ping")) "ping" ping_notification st0
            eq_refl eq_refl)
  as [Hcall Htask].
split; [exact Hcall|].
destruct (Htask (scheduled (logged st0 DEBUG "Received raw message: ping")
                   ping_notification))
  as (_ & _ & Hregistered).
destruct (Hregistered ping eq_refl) as (_ & _ & Hvalid).
destruct (Hvalid (PyDict []) eq_refl) as (_ & _ & Hrules).
destruct (Hrules eq_refl) as [_ Hreturns].
exact (Hreturns (PyDict [("pong", PyBool true)]) 1%nat eq_refl).
Defined.

(** A notification whose handler raises: nothing but an error record. *)
Example notification_handler_raises :
handle_notification server (mkNotification "BOOM" (PyDict [])) st0
= (Ok tt,
   mkState 1%nat [mkLog ERROR "Error handling notification BOOM: boom"] []
     [("BOOM", PyDict [])]).
Proof. reflexivity. Qed.

(** A handler result that does not serialize escapes the dispatch steps as
  a TypeError and comes back as Internal error with a null id. *)
Lemma handle_jsonrpc_never_raises_witness :
handle_jsonrpc server (mkHttpRequest (Ok "set 3")) st0
= (Ok (Some (json_http (error_dict
               (mkError (-32603) "Internal error"
                  (PyStr "Object of type set is not JSON serializable") IdNone)))),
   logged (called (logged st0 DEBUG "Received raw message: set 3")
             "SET" (PyDict []) 1%nat)
     ERROR "Error handling request: Object of type set is not JSON serializable").
Proof.
exact (proj2 (handle_jsonrpc_never_raises validate_jsonrpc_message
                validate_a2a_message validate_business_rules server
                (mkHttpRequest (Ok "set 3")) st0)
         (Exn "TypeError" "Object of type set is not JSON serializable")
         (called (logged st0 DEBUG "Received raw message: set 3")
            "SET" (PyDict []) 1%nat)
         eq_refl).
Defined.

(** Scenario C: a payload the parser raises on. *)
Example scenario_c :
handle_jsonrpc server (mkHttpRequest (Ok "")) st0
= (Ok (Some (json_http (error_dict
               (mkError (-32603) "Internal error" (PyStr "empty payload") IdNone)))),
   mkState 0%nat
     [mkLog DEBUG "Received raw message: ";
      mkLog ERROR "Error handling request: empty payload"] [] []).
Proof. reflexivity. Qed.

(** A payload the parser returns a list for. *)
Lemma handle_jsonrpc_falls_through_witness :
handle_jsonrpc server (mkHttpRequest (Ok "[]")) st0
= (Ok None, logged st0 DEBUG "Received raw message: []").
Proof.
exact (proj1 (handle_jsonrpc_falls_through validate_jsonrpc_message
                validate_a2a_message validate_business_rules server
                (mkHttpRequest (Ok "[]")) st0)
         "[]" (PyList []) eq_refl eq_refl).
Defined.

(** The same request before and after the world moved on. *)
Example classification_ping :
classify st0 (handle_jsonrpc server (mkHttpRequest (Ok "ping 1")) st0)
= ReachedInvocation
/\ classify st0 (handle_jsonrpc server (mkHttpRequest (Ok "unknown 2")) st0)
   = Classified
       (Ok (Some (json_http (error_dict
                    (mkError (-32601) "Method not found"
                       (PyStr "Method 'UNKNOWN' not found") (IdInt 2))))))
       [mkLog DEBUG "Received raw message: unknown 2"].
Proof. split; reflexivity. Qed.

(** The constructor under three environments. *)
Example init_default_environment :
@__init__ World A2AMessage py_int ∅ None None
= Ok (mkServer None None
        [("POST", "/jsonrpc", "_handle_jsonrpc"); ("GET", "/health", "_handle_health")]
        ∅).
Proof. reflexivity. Qed.

Example init_environment_ignored :
@__init__ World A2AMessage py_int
  (<["A2A_HOST" := "10.0.0.1"]> (<["A2A_PORT" := "9000"]> ∅)) None None
= Ok (mkServer None None
        [("POST", "/jsonrpc", "_handle_jsonrpc"); ("GET", "/health", "_handle_health")]
        ∅).
Proof. reflexivity. Qed.

Example init_bad_port :
@__init__ World A2AMessage py_int (<["A2A_PORT" := "http"]> ∅) None None
= Raise (Exn "ValueError" "invalid literal for int() with base 10: 'http'").
Proof. reflexivity. Qed.

End ToyFacts.

(** ** Properties of the error tracking hooks *)

Module ErrorTrackingFacts.

Import ErrorTracking.

(** *** Dicts *)

Lemma dict_get_set_eq (k : string) (v : pyval) (d : dict) :
  dict_get k (dict_set k v d) = Some v.
Proof.
  induction d as [|[k' v'] d IH]; simpl.
  - by rewrite String.eqb_refl.
  - destruct (String.eqb_spec k k') as [->|Hne]; simpl.
    + by rewrite String.eqb_refl.
    + by destruct (String.eqb_spec k k').
Qed.

Lemma dict_get_set_ne (k k' : string) (v : pyval) (d : dict) :
  k <> k' -> dict_get k (dict_set k' v d) = dict_get k d.
Proof.
  intros Hne. induction d as [|[k0 v0] d IH]; simpl.
  - by destruct (String.eqb_spec k k').
  - destruct (String.eqb_spec k' k0) as [->|Hne0]; simpl.
    + by destruct (String.eqb_spec k k0).
    + by rewrite IH.
Qed.

Lemma dict_set_same (k : string) (v : pyval) (d : dict) :
  dict_get k d = Some v -> dict_set k v d = d.
Proof.
  induction d as [|[k' v'] d IH]; simpl; [done|].
  destruct (String.eqb_spec k k') as [->|Hne].
  - by intros [= ->].
  - intros Hget. by rewrite IH.
Qed.

Lemma dict_set_set (k : string) (v w : pyval) (d : dict) :
  dict_set k v (dict_set k w d) = dict_set k v d.
Proof.
  induction d as [|[k' v'] d IH]; simpl.
  - by rewrite String.eqb_refl.
  - destruct (String.eqb_spec k k') as [->|Hne]; simpl.
    + by rewrite String.eqb_refl.
    + destruct (String.eqb_spec k k'); [done|]. by rewrite IH.
Qed.

(** *** [before_send] *)

(** The three ways through [before_send]. *)
Lemma before_send_run (env : gmap string string) (event : dict) (hint : pyval) :
  before_send env event hint
  = if in_development env && is_info (dict_get "level" event)
    then (Ok None, event)
    else match dict_get "tags" event with
         | None => (Ok (Some (tagged event [])), tagged event [])
         | Some (PyDict tags) => (Ok (Some (tagged event tags)), tagged event tags)
         | Some other =>
             (match setitem other "service" service_tag with
              | Ok _ => Ok None
              | Raise e => Raise e
              end, event)
         end.
Proof.
  unfold before_send, tagged.
  destruct (in_development env && is_info (dict_get "level" event)); [done|].
  destruct (dict_get "tags" event) as [other|] eqn:Htags.
  - unfold set_tag. rewrite Htags.
    destruct other; try done.
    cbn [setitem]. rewrite dict_get_set_eq. cbn [setitem].
    by rewrite dict_set_set.
  - unfold set_tag. rewrite dict_get_set_eq. cbn [setitem].
    rewrite dict_get_set_eq. cbn [setitem].
    by rewrite !dict_set_set.
Qed.

Lemma before_send_passes
    (env : gmap string string) (event : dict) (hint : pyval) (tags : dict) :
  in_development env && is_info (dict_get "level" event) = false ->
  tags_of event = Some tags ->
  before_send env event hint = (Ok (Some (tagged event tags)), tagged event tags).
Proof.
  intros Hkeep Htags. rewrite before_send_run, Hkeep.
  unfold tags_of in Htags.
  destruct (dict_get "tags" event) as [[]|]; by simplify_eq.
Qed.

(** X12: an event that [before_send] lets through comes back as the same
    object, changed in place, with the tags service =
    terra-constellata-backend and component = api; every other key of the
    event and every other tag is as it was. *)
Theorem before_send_tags
    (env : gmap string string) (event : dict) (hint : pyval)
    (event' final : dict) :
  before_send env event hint = (Ok (Some event'), final) ->
  final = event'
  /\ exists tags tags' : dict,
      tags_of event = Some tags
      /\ dict_get "tags" event' = Some (PyDict tags')
      /\ dict_get "service" tags' = Some (PyStr "terra-constellata-backend")
      /\ dict_get "component" tags' = Some (PyStr "api")
      /\ (forall k, k <> "service" -> k <> "component" ->
            dict_get k tags' = dict_get k tags)
      /\ (forall k, k <> "tags" -> dict_get k event' = dict_get k event).
Proof.
  rewrite before_send_run.
  destruct (in_development env && is_info (dict_get "level" event)); [done|].
  assert (Hshape : forall tags,
    tags_of event = Some tags ->
    exists tags0 tags' : dict,
      tags_of event = Some tags0
      /\ dict_get "tags" (tagged event tags) = Some (PyDict tags')
      /\ dict_get "service" tags' = Some (PyStr "terra-constellata-backend")
      /\ dict_get "component" tags' = Some (PyStr "api")
      /\ (forall k, k <> "service" -> k <> "component" ->
            dict_get k tags' = dict_get k tags0)
      /\ (forall k, k <> "tags" ->
            dict_get k (tagged event tags) = dict_get k event)).
  { intros tags Htags. exists tags. eexists. split; [done|].
    unfold tagged. split; [apply dict_get_set_eq|].
    split; [by rewrite dict_get_set_ne, dict_get_set_eq|].
    split; [by rewrite dict_get_set_eq|].
    split.
    - intros k Hs Hc. by rewrite !dict_get_set_ne.
    - intros k Hk. by rewrite dict_get_set_ne. }
  unfold tags_of in *.
  destruct (dict_get "tags" event) as [other|].
  - destruct other; try done; intros [= <- <-]; split; [done|]; by apply Hshape.
  - intros [= <- <-]. split; [done|]. by apply Hshape.
Qed.

(** X13: [before_send] has three outcomes and leaves the event untouched in
    two of them.  It drops the event exactly when ENVIRONMENT is
    development and the level of the event is info; otherwise it raises
    TypeError exactly when the event has a "tags" entry that is not a dict;
    otherwise it returns the event.  Outside development no event is
    dropped. *)
Theorem before_send_outcome
    (env : gmap string string) (event : dict) (hint : pyval) :
  match before_send env event hint with
  | (Ok None, final) =>
      final = event
      /\ env !! "ENVIRONMENT" = Some "development"
      /\ dict_get "level" event = Some (PyStr "info")
  | (Raise e, final) =>
      final = event
      /\ exn_class e = "TypeError"
      /\ tags_of event = None
      /\ ~ (env !! "ENVIRONMENT" = Some "development"
            /\ dict_get "level" event = Some (PyStr "info"))
  | (Ok (Some event'), final) =>
      final = event'
      /\ is_Some (tags_of event)
      /\ ~ (env !! "ENVIRONMENT" = Some "development"
            /\ dict_get "level" event = Some (PyStr "info"))
  end.
Proof.
  rewrite before_send_run.
  assert (Hdrop : in_development env && is_info (dict_get "level" event) = true
                  <-> env !! "ENVIRONMENT" = Some "development"
                      /\ dict_get "level" event = Some (PyStr "info")).
  { unfold in_development, is_info. rewrite andb_true_iff.
    destruct (env !! "ENVIRONMENT") as [s|];
      [destruct (String.eqb_spec s "development")|];
      (destruct (dict_get "level" event) as [[| | |l| | |]|];
         [| | |destruct (String.eqb_spec l "info")| | | |]);
      split; intros [H1 H2]; simplify_eq; done. }
  destruct (in_development env && is_info (dict_get "level" event)).
  - split; [done|]. by apply Hdrop.
  - assert (Hkeep : ~ (env !! "ENVIRONMENT" = Some "development"
                       /\ dict_get "level" event = Some (PyStr "info"))).
    { intros H. by apply Hdrop in H. }
    unfold tags_of.
    destruct (dict_get "tags" event) as [other|]; [destruct other|]; simpl; eauto.
Qed.

Lemma tagged_again (event tags : dict) :
  tagged (tagged event tags)
    (dict_set "component" component_tag (dict_set "service" service_tag tags))
  = tagged event tags.
Proof.
  unfold tagged.
  set (tags' := dict_set "component" component_tag
                  (dict_set "service" service_tag tags)).
  rewrite dict_set_set.
  assert (Hsame : dict_set "component" component_tag
                    (dict_set "service" service_tag tags') = tags').
  { rewrite (dict_set_same "service").
    - apply dict_set_same. subst tags'. by rewrite dict_get_set_eq.
    - subst tags'. by rewrite dict_get_set_ne, dict_get_set_eq. }
  by rewrite Hsame.
Qed.

(** X14: [before_send] is idempotent: an event it has let through goes
    through again unchanged, whatever the hint. *)
Theorem before_send_idempotent
    (env : gmap string string) (event : dict) (hint hint' : pyval)
    (event' final : dict) :
  before_send env event hint = (Ok (Some event'), final) ->
  before_send env event' hint' = (Ok (Some event'), event').
Proof.
  rewrite before_send_run.
  destruct (in_development env && is_info (dict_get "level" event)) eqn:Hkeep;
    [done|].
  assert (Hagain : forall tags,
    before_send env (tagged event tags) hint'
    = (Ok (Some (tagged event tags)), tagged event tags)).
  { intros tags.
    rewrite (before_send_passes env (tagged event tags) hint'
               (dict_set "component" component_tag
                  (dict_set "service" service_tag tags))).
    - by rewrite tagged_again.
    - unfold tagged. by rewrite dict_get_set_ne.
    - unfold tags_of, tagged. by rewrite dict_get_set_eq. }
  destruct (dict_get "tags" event) as [other|].
  - destruct other; try done; intros [= <- _]; apply Hagain.
  - intros [= <- _]. apply Hagain.
Qed.

(** X15: the two functions read an unset ENVIRONMENT differently.
    [init_sentry] takes it for development (and samples a tenth of the
    traces), while [before_send] does not: with ENVIRONMENT unset and a DSN
    configured, Sentry is initialized for the development environment and
    yet no info event is dropped. *)
Theorem unset_environment_is_not_filtered
    (env : gmap string string) (d : string) :
  env !! "ENVIRONMENT" = None ->
  env !! "SENTRY_DSN" = Some d ->
  d <> "" ->
  (exists init : SentryInit,
      (init_sentry env).1 = Some init
      /\ dsn init = d
      /\ environment init = "development"
      /\ traces_sample_rate init = (1 # 10)%Q)
  /\ forall (event : dict) (hint : pyval),
      (before_send env event hint).1 <> Ok None.
Proof.
  intros Henv Hdsn Hd. split.
  - unfold init_sentry. rewrite Hdsn, Henv.
    destruct (String.eqb_spec d ""); [done|]. by eexists.
  - intros event hint. rewrite before_send_run.
    unfold in_development. rewrite Henv. cbn [andb].
    destruct (dict_get "tags" event) as [other|]; [destruct other|]; done.
Qed.

(** *** The scope *)

Lemma set_scope_tags_user (sc : Scope) (kwargs : dict) :
  scope_user (set_scope_tags sc kwargs) = scope_user sc.
Proof.
  revert sc. induction kwargs as [|[k v] kwargs IH]; intros sc; [done|].
  unfold set_scope_tags in *. simpl. by rewrite IH.
Qed.

Lemma set_scope_tags_other (sc : Scope) (kwargs : dict) (k : string) :
  dict_get k kwargs = None ->
  dict_get k (scope_tags (set_scope_tags sc kwargs)) = dict_get k (scope_tags sc).
Proof.
  revert sc. induction kwargs as [|[k' v'] kwargs IH]; intros sc; [done|].
  simpl. destruct (String.eqb_spec k k') as [->|Hne]; [done|].
  intros Hnone. unfold set_scope_tags in *. simpl. rewrite IH; [|done].
  simpl. by rewrite dict_get_set_ne.
Qed.

Lemma set_scope_tags_last (sc : Scope) (kwargs : dict) (k : string) (v : pyval) :
  NoDup (map fst kwargs) ->
  dict_get k kwargs = Some v ->
  dict_get k (scope_tags (set_scope_tags sc kwargs)) = Some v.
Proof.
  revert sc. induction kwargs as [|[k' v'] kwargs IH]; intros sc; [done|].
  simpl. intros Hnodup. apply NoDup_cons in Hnodup as [Hfresh Hnodup].
  destruct (String.eqb_spec k k') as [->|Hne].
  - intros [= ->].
    change (set_scope_tags sc ((k', v) :: kwargs))
      with (set_scope_tags (set_scope_tag sc k' v) kwargs).
    rewrite set_scope_tags_other; [simpl; apply dict_get_set_eq|].
    clear -Hfresh. induction kwargs as [|[k0 v0] kwargs IH]; [done|].
    simpl in *. apply not_elem_of_cons in Hfresh as [Hne Hfresh].
    destruct (String.eqb_spec k' k0); [done|]. by apply IH.
  - intros Hget.
    change (set_scope_tags sc ((k', v') :: kwargs))
      with (set_scope_tags (set_scope_tag sc k' v') kwargs).
    by apply IH.
Qed.

(** X16: the tags passed to [capture_exception] are not scoped to the
    call.  The exception is captured under a scope that carries each of
    them, every other tag and the user as before; and that scope stays the
    current one, so that a later [capture_message] without tags is captured
    under the very same scope, tags included. *)
Theorem capture_exception_tags_stay
    (exc : exn) (kwargs : dict) (s : Sentry) :
  NoDup (map fst kwargs) ->
  exists sc : Scope,
    capture_exception exc kwargs s
    = mkSentry sc (captures s ++ [CapturedException exc sc])
    /\ (forall k v, dict_get k kwargs = Some v -> dict_get k (scope_tags sc) = Some v)
    /\ (forall k, dict_get k kwargs = None ->
          dict_get k (scope_tags sc) = dict_get k (scope_tags (scope s)))
    /\ scope_user sc = scope_user (scope s)
    /\ (forall message level,
          capture_message message level [] (capture_exception exc kwargs s)
          = mkSentry sc
              (captures s ++ [CapturedException exc sc;
                              CapturedMessage message (default "info" level) sc])).
Proof.
  intros Hnodup. exists (set_scope_tags (scope s) kwargs).
  split; [done|].
  split; [intros k v; by apply set_scope_tags_last|].
  split; [intros k; by apply set_scope_tags_other|].
  split; [apply set_scope_tags_user|].
  intros message level. unfold capture_message, capture_exception. simpl.
  by rewrite <- app_assoc.
Qed.


(** [set_user_context] sets the user only under a truthy user id;
    with none, or with the id 0 or the empty string, the email and the
    username given are dropped and the scope stays as it was.  With a
    truthy id the user is replaced as a whole. *)
Lemma set_user_context_needs_id
    (user_id email username : pyval) (s : Sentry) :
  (truthy user_id = false -> set_user_context user_id email username s = s)
  /\ (truthy user_id = true ->
      scope_user (scope (set_user_context user_id email username s))
      = Some (PyDict [("id", user_id); ("email", email); ("username", username)])
      /\ scope_tags (scope (set_user_context user_id email username s))
         = scope_tags (scope s)
      /\ captures (set_user_context user_id email username s) = captures s).
Proof. unfold set_user_context. by split; intros ->. Qed.

(** *** At a small event *)

Import ToyTracking.

Lemma before_send_tags_witness :
  failure_tagged = failure_tagged
  /\ exists tags tags' : dict,
      tags_of failure = Some tags
      /\ dict_get "tags" failure_tagged = Some (PyDict tags')
      /\ dict_get "service" tags' = Some (PyStr "terra-constellata-backend")
      /\ dict_get "component" tags' = Some (PyStr "api")
      /\ (forall k, k <> "service" -> k <> "component" ->
            dict_get k tags' = dict_get k tags)
      /\ (forall k, k <> "tags" -> dict_get k failure_tagged = dict_get k failure).
Proof.
  exact (before_send_tags development failure PyNone failure_tagged failure_tagged
           eq_refl).
Defined.

Lemma before_send_idempotent_witness :
  before_send development failure_tagged (PyStr "again")
  = (Ok (Some failure_tagged), failure_tagged).
Proof.
  exact (before_send_idempotent development failure PyNone (PyStr "again")
           failure_tagged failure_tagged eq_refl).
Defined.

Lemma unset_environment_is_not_filtered_witness :
  (exists init : SentryInit,
      (init_sentry {["SENTRY_DSN" := "https://key@sentry.example/1"]}).1 = Some init
      /\ dsn init = "https://key@sentry.example/1"
      /\ environment init = "development"
      /\ traces_sample_rate init = (1 # 10)%Q)
  /\ forall (event : dict) (hint : pyval),
      (before_send {["SENTRY_DSN" := "https://key@sentry.example/1"]} event hint).1
      <> Ok None.
Proof.
  apply (unset_environment_is_not_filtered
           {["SENTRY_DSN" := "https://key@sentry.example/1"]}
           "https://key@sentry.example/1");
    [reflexivity | reflexivity | discriminate].
Defined.

Lemma capture_exception_tags_stay_witness :
  exists sc : Scope,
    capture_exception (Exn "ValueError" "bad row") [("job", PyStr "ingest")] quiet
    = mkSentry sc (captures quiet ++ [CapturedException (Exn "ValueError" "bad row") sc])
    /\ dict_get "job" (scope_tags sc) = Some (PyStr "ingest")
    /\ dict_get "release" (scope_tags sc) = Some (PyStr "1.0.0").
Proof.
  destruct (capture_exception_tags_stay (Exn "ValueError" "bad row")
              [("job", PyStr "ingest")] quiet (NoDup_singleton "job"))
    as (sc & Hrun & Hset & Hkept & _).
  exists sc. split; [exact Hrun|]. split.
  - exact (Hset "job" (PyStr "ingest") eq_refl).
  - exact (Hkept "release" eq_refl).
Defined.


End ErrorTrackingFacts.

(** ** Properties of the upload endpoint *)

Module MultimediaFacts.

Import Multimedia.

(** The first piece of a split holds no separator and starts the string. *)
Lemma split_on_head (sep : ascii) (s : string) :
  exists (x : string) (xs : list string),
    split_on sep s = x :: xs
    /\ (forall c, c ∈ list_ascii_of_string x -> c <> sep)
    /\ (s = x \/ exists rest, s = x +:+ String sep rest).
Proof.
  induction s as [|c s (x & xs & Hsplit & Hfree & Hstart)]; simpl.
  - exists "", []. split; [done|]. split; [|by left].
    intros c Hc. by apply elem_of_nil in Hc.
  - destruct (Ascii.eqb_spec c sep) as [->|Hne].
    + exists "", (split_on sep s). split; [done|]. split.
      * intros c Hc. by apply elem_of_nil in Hc.
      * right. by exists s.
    + rewrite Hsplit. exists (String c x), xs. split; [done|]. split.
      * intros c' Hc'. simpl in Hc'. apply elem_of_cons in Hc' as [->|Hc']; [done|].
        by apply Hfree.
      * destruct Hstart as [->|(rest & ->)]; [by left|].
        right. by exists rest.
Qed.

(** X18: the file type [upload_file] stores is never a path: it holds no
    slash.  It is unknown when the upload has no content type or an empty
    one, and otherwise the content type up to its first slash. *)
Theorem file_type_has_no_slash (content_type : option string) :
  exists file_type : string,
    file_type_of content_type = Ok file_type
    /\ (forall c, c ∈ list_ascii_of_string file_type -> c <> "/"%char)
    /\ match content_type with
       | None => file_type = "unknown"
       | Some ct =>
           if String.eqb ct "" then file_type = "unknown"
           else ct = file_type \/ exists rest, ct = file_type +:+ String "/" rest
       end.
Proof.
  assert (Hunknown : forall c, c ∈ list_ascii_of_string "unknown" -> c <> "/"%char).
  { intros c Hc. simpl in Hc.
    repeat (apply elem_of_cons in Hc as [->|Hc]; [done|]).
    by apply elem_of_nil in Hc. }
  unfold file_type_of. destruct content_type as [ct|]; [|by exists "unknown"].
  destruct (String.eqb ct ""); [by exists "unknown"|].
  destruct (split_on_head "/" ct) as (x & xs & -> & Hfree & Hstart).
  by exists x.
Qed.

Section UploadFacts.

Context {FS DB Handle Row Create : Type}.
Variable open_wb : string -> FS -> result Handle * FS.
Variable write : Handle -> string -> FS -> result unit * FS.
Variable close : Handle -> FS -> result unit * FS.
Variable MultimediaCreate : option string -> string -> Z -> result Create.
Variable create_multimedia : Create -> string -> DB -> result Row * DB.

(** X19: [upload_file] touches the database last.  Without a content id,
    or with the id 0, it raises the 400 error and touches neither the file
    system nor the database; with one, the database is as before unless
    the file was opened, read, written and closed without an exception and
    the record was built, and then the call is the one to
    [crud.create_multimedia], under the path uploads/<filename>. *)
Theorem upload_file_writes_before_recording
    (file : UploadFile) (content_id : option Z) (fs : FS) (db : DB) :
  let run := upload_file open_wb write close MultimediaCreate create_multimedia
               file content_id fs db in
  let file_path := "uploads/" +:+ default "None" (filename file) in
  (content_id = None \/ content_id = Some 0 ->
   run = (Raise (Exn "HTTPException" "400: content_id is required"), (fs, db)))
  /\ (run.2.2 = db
      \/ exists (cid : Z) (out_file : Handle) (content : string)
               (fs1 fs2 fs3 : FS) (file_type : string) (record : Create),
          content_id = Some cid /\ cid <> 0
          /\ open_wb file_path fs = (Ok out_file, fs1)
          /\ read file = Ok content
          /\ write out_file content fs1 = (Ok tt, fs2)
          /\ close out_file fs2 = (Ok tt, fs3)
          /\ file_type_of (content_type file) = Ok file_type
          /\ MultimediaCreate (filename file) file_type cid = Ok record
          /\ run = ((create_multimedia record file_path db).1,
                    (fs3, (create_multimedia record file_path db).2))).
Proof.
  intros run file_path. subst run. split.
  - by intros [->| ->].
  - unfold upload_file.
    destruct content_id as [cid|]; [|by left].
    destruct (Z.eqb_spec cid 0) as [->|Hcid]; [by left|].
    change (UPLOAD_DIR +:+ "/" +:+ format_opt (filename file)) with file_path.
    unfold save.
    destruct (open_wb file_path fs) as [[out_file|e] fs1] eqn:Hopen; [|by left].
    destruct (read file) as [content|e] eqn:Hread.
    + destruct (write out_file content fs1) as [[[]|e] fs2] eqn:Hwrite;
        (destruct (close out_file fs2) as [[[]|e'] fs3] eqn:Hclose; [|by left]);
        [|by left].
      destruct (file_type_of (content_type file)) as [file_type|e] eqn:Htype;
        [|by left].
      destruct (MultimediaCreate (filename file) file_type cid) as [record|e]
        eqn:Hrecord; [|by left].
      right. exists cid, out_file, content, fs1, fs2, fs3, file_type, record.
      repeat (split; [done|]).
      by destruct (create_multimedia record file_path db).
    + destruct (close out_file fs1) as [[[]|e'] fs3]; by left.
Qed.

End UploadFacts.

(** An upload without a content id, and one with the id 0. *)
Lemma upload_file_writes_before_recording_witness :
  ToyUpload.upload ToyUpload.photo None ∅ []
  = (Raise (Exn "HTTPException" "400: content_id is required"), (∅, []))
  /\ ToyUpload.upload ToyUpload.photo (Some 0) ∅ []
     = (Raise (Exn "HTTPException" "400: content_id is required"), (∅, [])).
Proof.
  split.
  - exact (proj1 (upload_file_writes_before_recording ToyUpload.open_wb
                    ToyUpload.write ToyUpload.close ToyUpload.MultimediaCreate
                    ToyUpload.create_multimedia ToyUpload.photo None ∅ [])
             (or_introl eq_refl)).
  - exact (proj1 (upload_file_writes_before_recording ToyUpload.open_wb
                    ToyUpload.write ToyUpload.close ToyUpload.MultimediaCreate
                    ToyUpload.create_multimedia ToyUpload.photo (Some 0) ∅ [])
             (or_intror eq_refl)).
Defined.

(** An upload that goes through: the file is there, then the row. *)
Example upload_file_stores :
  ToyUpload.upload ToyUpload.photo (Some 7) ∅ []
  = (Ok ((Some "a.png", "image", 7), "uploads/a.png"),
     ({["uploads/a.png" := "PNG..."]},
      [((Some "a.png", "image", 7), "uploads/a.png")])).
Proof. vm_compute. reflexivity. Qed.

End MultimediaFacts.

(** ** Properties of the CSV ingestion *)

Module IngestionFacts.

Import Ingestion.

Section IngestFacts.

Context {Cell DB Numeric : Type}.
Variable pd_read_csv : string -> result (@DataFrame Cell).
Variable to_numeric : string -> @DataFrame Cell -> result Numeric.
Variable count_outside : Numeric -> Z -> Z -> result Z.
Variable clean_frame : @DataFrame Cell -> result (@DataFrame Cell).
Variable missing_count : string -> @DataFrame Cell -> Z.
Variable zero_coords : @DataFrame Cell -> Z.
Variable duplicate_names : @DataFrame Cell -> Z.
Variable source_urls : @DataFrame Cell -> list string.
Variable below_tenth : Z -> Z -> bool.
Variable isna : Cell -> bool.
Variable path_name : string -> string.
Variable executemany : string -> list (@tuple Cell) -> DB -> result unit * DB.
Variable commit : DB -> result unit * DB.
Variable rollback : DB -> result unit * DB.
Variable execute_command : string -> list sql_param -> DB -> result unit * DB.

Abbreviation DataFrame := (@DataFrame Cell).
Abbreviation istate := (@istate Cell DB).
Abbreviation validate_structure := (validate_csv_structure to_numeric count_outside).
Abbreviation validate_quality :=
  (validate_data_quality missing_count zero_coords duplicate_names source_urls
     below_tenth).
Abbreviation insert_rows := (insert_data_batch isna executemany commit rollback).
Abbreviation insert_one := (insert_batch isna executemany commit rollback).
Abbreviation batch_data_at := (@batch_data_at Cell isna).
Abbreviation log_result := (@log_processing_result Cell DB execute_command).
Abbreviation ingest :=
  (ingest_csv_file pd_read_csv to_numeric count_outside clean_frame missing_count
     zero_coords duplicate_names source_urls below_tenth isna path_name
     executemany commit rollback execute_command).

(** *** Structure validation *)

(** Membership in the list of expected columns. *)
Ltac member :=
  repeat first [apply list_elem_of_here | apply list_elem_of_further].
Ltac expected := unfold expected_columns; member.

Lemma filter_nil_iff {A} (P : A -> Prop) `{!forall x, Decision (P x)} (l : list A) :
  filter P l = [] <-> Forall (fun x => ~ P x) l.
Proof.
  induction l as [|x l IH]; [by rewrite filter_nil|].
  rewrite filter_cons, Forall_cons. destruct (decide (P x)); naive_solver.
Qed.

Lemma check_range_nil (df : DataFrame) (col : string) (lo hi : Z) :
  check_range to_numeric count_outside df col lo hi = []
  <-> (has_column df col = true ->
       exists x, to_numeric col df = Ok x /\ count_outside x lo hi = Ok 0).
Proof.
  unfold check_range. destruct (has_column df col); [|by split].
  destruct (to_numeric col df) as [x|e] eqn:Hnum.
  - destruct (count_outside x lo hi) as [n|e] eqn:Hcount.
    + destruct (Z.eqb_spec n 0) as [->|Hn]; split; try done.
      * intros _ _. by exists x.
      * intros H. destruct H as (x' & [= <-] & Hzero); [done|]. congruence.
    + split; [done|]. intros H. destruct H as (x' & [= <-] & Hzero); [done|].
      congruence.
  - split; [done|]. intros H. by destruct H as (x' & [=] & _).
Qed.

(** X20: [validate_csv_structure] accepts a frame exactly when it reports no
    issue, and it does so exactly when the frame has all eight expected
    columns and is not empty, [pd.to_numeric] goes through on row_number,
    latitude and longitude, and no latitude lies outside -90..90 and no
    longitude outside -180..180. *)
Theorem validate_csv_structure_accepts (df : DataFrame) :
  ((validate_structure df).1 = true <-> (validate_structure df).2 = [])
  /\ ((validate_structure df).1 = true <->
      (forall col, col ∈ expected_columns -> col ∈ columns df)
      /\ rows df <> [] /\ columns df <> []
      /\ (exists x, to_numeric "row_number" df = Ok x)
      /\ (exists x, to_numeric "latitude" df = Ok x
                    /\ count_outside x (-90) 90 = Ok 0)
      /\ (exists x, to_numeric "longitude" df = Ok x
                    /\ count_outside x (-180) 180 = Ok 0)).
Proof.
  unfold validate_csv_structure. cbn [fst snd].
  set (missing := filter _ expected_columns).
  set (issues := (_ ++ _)%list).
  assert (Hvalid : match issues with [] => true | _ :: _ => false end = true
                   <-> issues = []) by (by destruct issues).
  split; [done|]. rewrite Hvalid. subst issues.
  rewrite !app_nil, !check_range_nil.
  assert (Hmissing : missing = [] <-> forall col, col ∈ expected_columns -> col ∈ columns df).
  { subst missing. rewrite filter_nil_iff, Forall_forall.
    apply forall_proper. intros col. unfold has_column.
    destruct (bool_decide_reflect (col ∈ columns df)); cbn; naive_solver. }
  split.
  - intros (Hm & Hempty & Hrow & Hlat & Hlon).
    assert (Hall : forall col, col ∈ expected_columns -> col ∈ columns df).
    { apply Hmissing. by destruct missing. }
    assert (Hcol : forall col, col ∈ expected_columns -> has_column df col = true).
    { intros col Hin. unfold has_column. by apply bool_decide_eq_true, Hall. }
    split; [done|].
    unfold empty in Hempty.
    split; [by destruct (rows df)|].
    split; [destruct (rows df); [done|]; by destruct (columns df)|].
    split.
    + rewrite Hcol in Hrow by expected.
      destruct (to_numeric "row_number" df); [by eexists|done].
    + split; [apply Hlat|apply Hlon]; apply Hcol; expected.
  - intros (Hall & Hrows & Hcols & (x & Hrow) & Hlat & Hlon).
    apply Hmissing in Hall. rewrite Hall, Hrow.
    unfold empty.
    destruct (rows df); [done|]. destruct (columns df); [done|].
    split; [done|]. split; [done|]. split; [by destruct (has_column _ _)|].
    by split.
Qed.

(** *** Quality validation *)




(** *** Batches *)

Lemma chunks_cover {A} (b : nat) (l : list A) (c : nat) :
  (0 < b)%nat -> (length l <= c * b)%nat ->
  concat (map (fun k => take b (drop (k * b) l)) (seq 0 c)) = l.
Proof.
  intros Hb. revert l. induction c as [|c IH]; intros l Hlen.
  - destruct l; simpl in *; first [done | lia].
  - rewrite <- cons_seq, <- fmap_S_seq. cbn [map concat].
    rewrite drop_0. change (map ?f (S <$> ?l)) with (map f (map S l)).
    rewrite map_map.
    rewrite (map_ext _ (fun k => take b (drop (k * b) (drop b l)))).
    + rewrite IH; [apply take_drop|]. rewrite length_drop. lia.
    + intros k. by rewrite drop_drop.
Qed.

Lemma omap_concat {A B} (f : A -> option B) (ls : list (list A)) :
  omap f (concat ls) = concat (map (omap f) ls).
Proof.
  induction ls as [|l ls IH]; [done|].
  cbn [concat map]. by rewrite omap_app, IH.
Qed.

Lemma concat_nonempty {A} (ls : list (list A)) :
  concat (filter (fun l => l <> []) ls) = concat ls.
Proof.
  induction ls as [|l ls IH]; [done|].
  rewrite filter_cons. destruct (decide (l <> [])) as [Hl|Hl]; cbn [concat].
  - by rewrite IH.
  - rewrite IH. destruct l; [done|]. by destruct Hl.
Qed.

(** The rows of the batch that starts at [i], as they go to the database. *)
Lemma range_covers (df : DataFrame) (batch_size : Z) (starts : list Z) :
  0 < batch_size ->
  py_range 0 (len df) batch_size = Ok starts ->
  concat (map (fun i => rows (iloc df i (i + batch_size))) starts) = rows df
  /\ Forall (fun i => Z.of_nat (length (rows (iloc df i (i + batch_size)))) <= batch_size)
       starts.
Proof.
  intros Hpos. unfold py_range.
  destruct (Z.eqb_spec batch_size 0) as [?|_]; [lia|].
  destruct (Z.ltb_spec 0 batch_size) as [_|?]; [|lia].
  intros [= <-]. rewrite Z.sub_0_r.
  set (c := Z.to_nat ((len df + batch_size - 1) / batch_size)).
  set (b := Z.to_nat batch_size).
  assert (Hslice : forall k : nat,
    rows (iloc df (0 + Z.of_nat k * batch_size)
            (0 + Z.of_nat k * batch_size + batch_size))
    = take b (drop (k * b) (rows df))).
  { intros k. unfold iloc. cbn [rows]. f_equal; [subst b; f_equal; lia|].
    f_equal. subst b. lia. }
  split.
  - rewrite map_map. rewrite (map_ext _ (fun k => take b (drop (k * b) (rows df))));
      [|done].
    apply chunks_cover; [subst b; lia|].
    subst c b. unfold len.
    pose proof (Z.div_mod (Z.of_nat (length (rows df)) + batch_size - 1) batch_size).
    pose proof (Z.mod_pos_bound
                  (Z.of_nat (length (rows df)) + batch_size - 1) batch_size Hpos).
    nia.
  - rewrite Forall_map. apply Forall_forall. intros k _. cbn beta.
    rewrite Hslice, length_take. subst b. lia.
Qed.

Lemma length_omap_le {A B} (f : A -> option B) (l : list A) :
  (length (omap f l) <= length l)%nat.
Proof.
  induction l as [|x l IH]; [done|]. cbn. destruct (f x); simpl; lia.
Qed.

(** One turn of the loop: the batch, if not empty, is handed over once;
    the count grows by its size, or an error message is added. *)
Lemma insert_batch_run (df : DataFrame) (batch_size i n : Z) (errs : list string)
    (st st' : istate) (r : result (Z * list string)) :
  insert_one df batch_size i (n, errs) st = (r, st') ->
  batches st' = (batches st ++ filter (fun l => l <> []) [batch_data_at df batch_size i])%list
  /\ match r with
     | Ok (n', errs') =>
         (n' = n + Z.of_nat (length (batch_data_at df batch_size i)) /\ errs' = errs)
         \/ (batch_data_at df batch_size i <> [] /\ n' = n
             /\ exists msg, errs' = (errs ++ [msg])%list)
     | Raise _ => True
     end.
Proof.
  unfold insert_batch, stry, sbind, cursor_executemany, on_db, logger, sret.
  fold (batch_data_at df batch_size i).
  destruct (batch_data_at df batch_size i) as [|t data] eqn:Hdata.
  - intros [= <- <-]. rewrite filter_cons, filter_nil.
    destruct (decide _) as [H|_]; [done|]. rewrite app_nil_r. split; [done|].
    left. split; [simpl; lia|done].
  - rewrite filter_cons, filter_nil. destruct (decide _) as [_|H]; [|by destruct H].
    destruct (executemany insert_query (t :: data) (db st)) as [[[]|e] d1]; cbn.
    + destruct (commit d1) as [[[]|e] d2]; cbn.
      * intros [= <- <-]. cbn. split; [done|]. left. by split.
      * destruct (rollback d2) as [[[]|e'] d3]; cbn; intros [= <- <-]; cbn;
          (split; [done|]); [|done].
        right. split; [done|]. split; [done|]. by eexists.
    + destruct (rollback d1) as [[[]|e'] d3]; cbn; intros [= <- <-]; cbn;
        (split; [done|]); [|done].
      right. split; [done|]. split; [done|]. by eexists.
Qed.

Lemma for_each_insert (df : DataFrame) (batch_size : Z) (starts : list Z)
    (n n' : Z) (errs errs' : list string) (st st' : istate) :
  for_each starts (insert_one df batch_size) (n, errs) st = (Ok (n', errs'), st') ->
  let sent := filter (fun l => l <> []) (map (batch_data_at df batch_size) starts) in
  batches st' = (batches st ++ sent)%list
  /\ n <= n' <= n + Z.of_nat (length (concat sent))
  /\ exists new : list string,
      errs' = (errs ++ new)%list
      /\ (length new <= length sent)%nat
      /\ (new = [] -> n' = n + Z.of_nat (length (concat sent))).
Proof.
  revert n errs st. induction starts as [|i starts IH]; intros n errs st.
  - intros [= <- <- <-]. cbn. rewrite app_nil_r. split; [done|]. split; [lia|].
    exists []. rewrite app_nil_r. split; [done|]. split; [done|]. lia.
  - cbn [for_each]. unfold sbind at 1.
    destruct (insert_one df batch_size i (n, errs) st) as [[[n1 errs1]|e] st1] eqn:Hone;
      [|done].
    apply insert_batch_run in Hone as [Hsent1 Hone].
    intros Hrest. apply IH in Hrest as (Hsent & Hbound & new & -> & Hnew & Hall).
    cbn [map]. rewrite filter_cons.
    set (rest := filter (fun l => l <> []) (map (batch_data_at df batch_size) starts)) in *.
    rewrite filter_cons, filter_nil in Hsent1.
    destruct (decide (batch_data_at df batch_size i <> [])) as [Hdata|Hdata].
    + rewrite Hsent, Hsent1, <- app_assoc. split; [done|].
      cbn [concat]. rewrite length_app.
      destruct Hone as [[-> ->]|(_ & -> & msg & ->)].
      * split; [lia|]. exists new. split; [done|]. split; [simpl; lia|].
        intros Hnil. rewrite Hall by done. lia.
      * split; [lia|]. exists (msg :: new). rewrite <- app_assoc.
        split; [done|]. split; [simpl; lia|]. done.
    + rewrite Hsent, Hsent1, app_nil_r. split; [done|].
      destruct Hone as [[-> ->]|(Hne & _)]; [|done].
      assert (Hempty : batch_data_at df batch_size i = []).
      { destruct (batch_data_at df batch_size i); [done|]. by destruct Hdata. }
      rewrite Hempty in *. cbn [length] in *.
      split; [lia|]. exists new. split; [done|]. split; [done|].
      intros Hnil. rewrite Hall by done. lia.
Qed.

Lemma insert_data_batch_run (df : DataFrame) (batch_size : Z) (st : istate) :
  insert_rows df batch_size st
  = let st1 :=
      mkIState (db st)
        (ilog st ++ [mkLog INFO ("Inserting " +:+ pretty (len df)
                                 +:+ " records in batches of " +:+ pretty batch_size)])
        (batches st) in
    match py_range 0 (len df) batch_size with
    | Ok starts => for_each starts (insert_one df batch_size) (0, []) st1
    | Raise e => (Raise e, st1)
    end.
Proof.
  unfold insert_data_batch, sbind, logger.
  by destruct (py_range 0 (len df) batch_size).
Qed.

(** X22: [insert_data_batch] with a batch size that is not positive never
    reaches the database.  A batch size of 0 raises the ValueError of
    [range]; a negative one returns 0 records and no error, whatever the
    frame holds. *)
Theorem insert_data_batch_without_batches
    (df : DataFrame) (batch_size : Z) (st : istate) :
  batch_size <= 0 ->
  insert_rows df batch_size st
  = (if Z.eqb batch_size 0
     then Raise (Exn "ValueError" "range() arg 3 must not be zero")
     else Ok (0, []),
     mkIState (db st)
       (ilog st ++ [mkLog INFO ("Inserting " +:+ pretty (len df)
                                +:+ " records in batches of " +:+ pretty batch_size)])
       (batches st)).
Proof.
  intros Hsize. rewrite insert_data_batch_run. unfold py_range. cbn zeta.
  destruct (Z.eqb_spec batch_size 0) as [->|Hne]; [done|].
  destruct (Z.ltb_spec 0 batch_size) as [?|_]; [lia|].
  assert (Hcount : Z.to_nat ((0 - len df - batch_size - 1) / - batch_size) = 0%nat).
  { assert ((0 - len df - batch_size - 1) / - batch_size < 1); [|lia].
    apply Z.div_lt_upper_bound; unfold len; lia. }
  by rewrite Hcount.
Qed.

Lemma insert_data_batch_sent
    (df : DataFrame) (batch_size n : Z) (errs : list string) (st st' : istate) :
  0 < batch_size ->
  insert_rows df batch_size st = (Ok (n, errs), st') ->
  exists sent : list (list (@tuple Cell)),
    batches st' = (batches st ++ sent)%list
    /\ concat sent = omap (batch_row isna) (rows df)
    /\ Forall (fun batch => batch <> []
                            /\ Z.of_nat (length batch) <= batch_size) sent
    /\ 0 <= n <= Z.of_nat (length (omap (batch_row isna) (rows df)))
    /\ (length errs <= length sent)%nat
    /\ (errs = [] -> n = Z.of_nat (length (omap (batch_row isna) (rows df)))).
Proof.
  intros Hpos. rewrite insert_data_batch_run. cbn zeta.
  destruct (py_range 0 (len df) batch_size) as [starts|e] eqn:Hrange; [|done].
  destruct (range_covers df batch_size starts Hpos Hrange) as [Hcover Hsizes].
  intros Hloop. apply for_each_insert in Hloop as (Hsent & Hbound & new & Herrs & Hnew & Hall).
  cbn [batches app] in *.
  set (sent := filter (fun l => l <> []) (map (batch_data_at df batch_size) starts)) in *.
  assert (Hconcat : concat sent = omap (batch_row isna) (rows df)).
  { subst sent. rewrite concat_nonempty. unfold batch_data_at.
    rewrite <- (map_map (fun i => rows (iloc df i (i + batch_size)))
                  (omap (batch_row isna))).
    by rewrite <- omap_concat, Hcover. }
  exists sent. rewrite <- Hconcat. split; [done|]. split; [done|].
  split.
  - subst sent. apply Forall_forall. intros batch Hbatch.
    apply list_elem_of_filter in Hbatch as [Hne Hbatch]. split; [done|].
    apply list_elem_of_fmap in Hbatch as (i & -> & Hi).
    rewrite Forall_forall in Hsizes. specialize (Hsizes i Hi).
    pose proof (length_omap_le (batch_row isna) (rows (iloc df i (i + batch_size)))).
    unfold batch_data_at. lia.
  - simpl in Herrs. subst errs. clearbody sent.
    split; [lia|]. split; [done|]. intros Hnil. rewrite Hall by done. lia.
Qed.

(** X23: when [insert_data_batch] returns under a positive batch size, every
    row that has a latitude and a longitude has been handed to
    [executemany] exactly once and in order, in batches that are neither
    empty nor larger than the batch size, and no row without coordinates
    has; the count it returns is at most the number of those rows, and
    equal to it when no error is reported; there are at most as many
    errors as batches. *)
Theorem insert_data_batch_hands_every_row
    (df : DataFrame) (batch_size n : Z) (errs : list string) (st st' : istate) :
  0 < batch_size ->
  insert_rows df batch_size st = (Ok (n, errs), st') ->
  exists sent : list (list (@tuple Cell)),
    batches st' = (batches st ++ sent)%list
    /\ concat sent = omap (batch_row isna) (rows df)
    /\ Forall (fun batch => batch <> []
                            /\ Z.of_nat (length batch) <= batch_size) sent
    /\ 0 <= n <= Z.of_nat (length (omap (batch_row isna) (rows df)))
    /\ (length errs <= length sent)%nat
    /\ (errs = [] -> n = Z.of_nat (length (omap (batch_row isna) (rows df)))).
Proof. apply insert_data_batch_sent. Qed.

(** X24: when [executemany] and [commit] never raise, [insert_data_batch]
    under a positive batch size returns, with no error and with the count
    of the rows that have a latitude and a longitude; rows without are
    skipped and counted nowhere. *)
Theorem insert_data_batch_counts_rows_with_coordinates
    (df : DataFrame) (batch_size : Z) (st : istate) :
  0 < batch_size ->
  (forall query data d, (executemany query data d).1 = Ok tt) ->
  (forall d, (commit d).1 = Ok tt) ->
  exists st' : istate,
    insert_rows df batch_size st
    = (Ok (Z.of_nat (length (omap (batch_row isna) (rows df))), []), st').
Proof.
  intros Hpos Hexec Hcommit.
  assert (Hloop : forall starts n st0,
    exists st1,
      for_each starts (insert_one df batch_size) (n, []) st0
      = (Ok (n + Z.of_nat (length (concat (map (batch_data_at df batch_size) starts))),
             []), st1)).
  { induction starts as [|i starts IH]; intros n st0.
    - exists st0. cbn. by rewrite Z.add_0_r.
    - cbn [for_each map concat]. unfold sbind at 1.
      assert (Hone : exists st1,
        insert_one df batch_size i (n, []) st0
        = (Ok (n + Z.of_nat (length (batch_data_at df batch_size i)), []), st1)).
      { unfold insert_batch, stry, sbind, cursor_executemany, on_db, logger, sret.
        fold (batch_data_at df batch_size i).
        destruct (batch_data_at df batch_size i) as [|t data].
        - exists st0. cbn. by rewrite Z.add_0_r.
        - specialize (Hexec insert_query (t :: data) (db st0)).
          destruct (executemany insert_query (t :: data) (db st0)) as [r d1].
          cbn in Hexec. subst r. cbn. specialize (Hcommit d1).
          destruct (commit d1) as [r d2]. cbn in Hcommit. subst r.
          eexists. cbn. reflexivity. }
      destruct Hone as [st1 ->].
      destruct (IH (n + Z.of_nat (length (batch_data_at df batch_size i))) st1)
        as [st2 ->].
      exists st2. rewrite length_app. do 3 f_equal. lia. }
  rewrite insert_data_batch_run. cbn zeta.
  destruct (py_range 0 (len df) batch_size) as [starts|e] eqn:Hrange.
  - destruct (range_covers df batch_size starts Hpos Hrange) as [Hcover _].
    edestruct (Hloop starts 0) as [st1 ->]. exists st1.
    unfold batch_data_at.
    rewrite <- (map_map (fun i => rows (iloc df i (i + batch_size)))
                  (omap (batch_row isna))).
    by rewrite <- omap_concat, Hcover.
  - unfold py_range in Hrange. destruct (Z.eqb_spec batch_size 0); [lia|done].
Qed.

(** *** The whole ingestion *)

Abbreviation read_file := (@read_csv_file Cell DB pd_read_csv).
Abbreviation clean := (@clean_data Cell DB clean_frame).

Lemma read_csv_file_run (path : string) (st : istate) :
  read_file path st
  = match pd_read_csv path with
    | Ok df =>
        (Ok df,
         mkIState (db st)
           (ilog st ++ [mkLog INFO ("Reading CSV file: " +:+ path);
                        mkLog INFO ("Read " +:+ pretty (len df) +:+ " rows from CSV file")])
           (batches st))
    | Raise e =>
        (Raise e,
         mkIState (db st)
           (ilog st ++ [mkLog INFO ("Reading CSV file: " +:+ path);
                        mkLog ERROR ("Failed to read CSV file " +:+ path +:+ ": "
                                     +:+ exn_str e)])
           (batches st))
    end.
Proof.
  unfold read_csv_file, stry, sbind, logger, sret, sraise. cbn.
  destruct (pd_read_csv path); cbn; by rewrite <- app_assoc.
Qed.

Lemma clean_data_run (df : DataFrame) (st : istate) :
  clean df st
  = match clean_frame df with
    | Ok cleaned =>
        (Ok cleaned,
         mkIState (db st)
           (ilog st ++ [mkLog INFO "Cleaning data...";
                        mkLog INFO ("Data cleaning completed. Rows: "
                                    +:+ pretty (len cleaned))])
           (batches st))
    | Raise e =>
        (Raise e,
         mkIState (db st) (ilog st ++ [mkLog INFO "Cleaning data..."]) (batches st))
    end.
Proof.
  unfold clean_data, sbind, logger, sret. cbn.
  destruct (clean_frame df); cbn; [by rewrite <- app_assoc|done].
Qed.

(** [log_processing_result] never raises: a failure of the database is
    logged and dropped. *)
Lemma log_processing_result_run
    (operation status : string) (n : Z) (message : option string) (st : istate) :
  exists st' : istate,
    log_result operation status n message st = (Ok tt, st')
    /\ batches st' = batches st
    /\ db st'
       = (execute_command log_query
            [SqlStr operation; SqlStr status; SqlInt n;
             match message with Some m => SqlStr m | None => SqlNull end]
            (db st)).2.
Proof.
  unfold log_processing_result, stry, on_db, logger.
  destruct (execute_command _ _ (db st)) as [[[]|e] d]; by eexists.
Qed.

(** Unfolds the plumbing of [ingest_csv_file]. *)
Ltac ingest_steps :=
  unfold ingest_csv_file, stry, ingest_try, ingest_except, sbind, lift_io,
    update, get_result, sret, logger.

(** X25: a file that cannot be read, and a file whose structure is
    rejected, both end in a result with success false, but they are not
    recorded alike.  For the unreadable file the result carries the one
    error Ingestion failed: <exception> and a FAILED row goes to the
    processing log; for the rejected structure the result carries the
    structure issues, and the database is not touched at all: no row goes
    to the processing log. *)
Theorem ingest_csv_file_early_failures
    (path : string) (batch_size : Z) (st : istate) :
  (forall e, pd_read_csv path = Raise e ->
     exists st' : istate,
       ingest path batch_size st
       = (Ok (mkResult false 0 0 ["Ingestion failed: " +:+ exn_str e] [] path), st')
       /\ batches st' = batches st
       /\ db st'
          = (execute_command log_query
               [SqlStr ("CSV Ingestion: " +:+ path_name path); SqlStr "FAILED";
                SqlInt 0; SqlStr ("Ingestion failed: " +:+ exn_str e)]
               (db st)).2)
  /\ (forall df issues,
        pd_read_csv path = Ok df ->
        validate_structure df = (false, issues) ->
        ingest path batch_size st
        = (Ok (mkResult false 0 0 issues [] path),
           mkIState (db st)
             (ilog st ++ [mkLog INFO ("Reading CSV file: " +:+ path);
                          mkLog INFO ("Read " +:+ pretty (len df)
                                      +:+ " rows from CSV file")])
             (batches st))).
Proof.
  split.
  - intros e Hread. ingest_steps. rewrite read_csv_file_run, Hread. cbn.
    edestruct (log_processing_result_run
                 ("CSV Ingestion: " +:+ path_name path) "FAILED" 0
                 (Some ("Ingestion failed: " +:+ exn_str e)))
      as (st' & -> & Hbatches & Hdb).
    exists st'. split; [done|]. by rewrite Hbatches, Hdb.
  - intros df issues Hread Hvalid. ingest_steps.
    rewrite read_csv_file_run, Hread. cbv beta iota zeta. by rewrite Hvalid.
Qed.

Lemma insert_data_batch_bound
    (df : DataFrame) (batch_size n : Z) (errs : list string) (st st' : istate) :
  insert_rows df batch_size st = (Ok (n, errs), st') ->
  0 <= n <= len df.
Proof.
  destruct (Z.lt_ge_cases 0 batch_size) as [Hpos|Hsize].
  - intros Hrun.
    destruct (insert_data_batch_sent df batch_size n errs st st' Hpos Hrun)
      as (sent & _ & _ & _ & Hn & _).
    pose proof (length_omap_le (batch_row isna) (rows df)). unfold len. lia.
  - rewrite insert_data_batch_run. unfold py_range. cbn zeta.
    destruct (Z.eqb_spec batch_size 0) as [->|Hne]; [done|].
    destruct (Z.ltb_spec 0 batch_size) as [?|_]; [lia|].
    assert (Hcount : Z.to_nat ((0 - len df - batch_size - 1) / - batch_size) = 0%nat).
    { assert ((0 - len df - batch_size - 1) / - batch_size < 1); [|lia].
      apply Z.div_lt_upper_bound; unfold len; lia. }
    rewrite Hcount. intros [= <- _ _]. unfold len. lia.
Qed.

(** Replaces a call of [log_processing_result] by its outcome. *)
Ltac log_returns :=
  match goal with
  | |- context [@log_processing_result _ _ _ ?op ?status ?n ?msg ?st] =>
      let st' := fresh "st" in
      let Hrun := fresh "Hlog" in
      let Hbatches := fresh "Hbatches" in
      let Hdb := fresh "Hdb" in
      destruct (log_processing_result_run op status n msg st)
        as (st' & Hrun & Hbatches & Hdb);
      rewrite Hrun
  end.

(** X26: [ingest_csv_file] never raises: whatever the file, the pandas
    calls and the database do, it returns a result for the path it was
    given.  In that result success implies that there is no error, and the
    number of records inserted lies between 0 and the number of records
    processed. *)
Theorem ingest_csv_file_always_reports
    (path : string) (batch_size : Z) (st : istate) :
  exists (res : IngestResult) (st' : istate),
    ingest path batch_size st = (Ok res, st')
    /\ file_path res = path
    /\ (success res = true -> errors res = [])
    /\ 0 <= records_inserted res <= records_processed res.
Proof.
  ingest_steps. rewrite read_csv_file_run.
  destruct (pd_read_csv path) as [df|e]; cbv beta iota zeta.
  2: { log_returns. eexists _, _. split; [reflexivity|]. cbn. by repeat split. }
  destruct (validate_structure df) as [[] issues]; cbn [negb]; cbv beta iota zeta.
  2: { eexists _, _. split; [reflexivity|]. cbn. by repeat split. }
  rewrite clean_data_run.
  destruct (clean_frame df) as [cleaned|e]; cbv beta iota zeta.
  2: { log_returns. eexists _, _. split; [reflexivity|]. cbn. by repeat split. }
  destruct (validate_quality cleaned) as [quality_ok issues'].
  cbv beta iota zeta.
  destruct (insert_rows cleaned batch_size _) as [[[n errs]|e] st3] eqn:Hinsert;
    cbv beta iota zeta.
  2: { log_returns. eexists _, _. split; [reflexivity|]. cbn. by repeat split. }
  apply insert_data_batch_bound in Hinsert.
  cbn [success errors set_success extend_errors set_records_inserted
       set_records_processed set_quality_issues records_processed
       records_inserted quality_issues file_path app].
  log_returns. eexists _, _. split; [reflexivity|]. cbn.
  split; [done|]. split; [|done].
  destruct errs; [done|]. by rewrite andb_false_l.
Qed.

(** X27: [ingest_csv_file] does not check the batch size.  On a file that
    reads, validates and cleans well, a negative batch size inserts
    nothing and still reports success, with a SUCCESS row of 0 records in
    the processing log; a batch size of 0 is reported as a failed
    ingestion, by the message of [range]. *)
Theorem ingest_csv_file_batch_size_unchecked
    (path : string) (batch_size : Z) (st : istate)
    (df cleaned : DataFrame) (issues : list Issue) :
  pd_read_csv path = Ok df ->
  (validate_structure df).1 = true ->
  clean_frame df = Ok cleaned ->
  validate_quality cleaned = (true, issues) ->
  batch_size <= 0 ->
  exists st' : istate,
    ingest path batch_size st
    = (Ok (if Z.eqb batch_size 0
           then mkResult false 0 0
                  ["Ingestion failed: range() arg 3 must not be zero"] issues path
           else mkResult true (len cleaned) 0 [] issues path), st')
    /\ batches st' = batches st
    /\ db st'
       = (execute_command log_query
            (if Z.eqb batch_size 0
             then [SqlStr ("CSV Ingestion: " +:+ path_name path); SqlStr "FAILED";
                   SqlInt 0;
                   SqlStr "Ingestion failed: range() arg 3 must not be zero"]
             else [SqlStr ("CSV Ingestion: " +:+ path_name path); SqlStr "SUCCESS";
                   SqlInt 0; SqlNull])
            (db st)).2.
Proof.
  intros Hread Hvalid Hclean Hquality Hsize.
  ingest_steps. rewrite read_csv_file_run, Hread. cbv beta iota zeta.
  destruct (validate_structure df) as [valid structure_issues].
  cbn in Hvalid. subst valid. cbn [negb]. cbv beta iota zeta.
  rewrite clean_data_run, Hclean. cbv beta iota zeta.
  rewrite Hquality. cbv beta iota zeta.
  rewrite insert_data_batch_run. unfold py_range. cbn zeta.
  destruct (Z.eqb_spec batch_size 0) as [->|Hne].
  - cbv beta iota zeta. log_returns. eexists. split; [reflexivity|].
    by rewrite Hbatches, Hdb.
  - destruct (Z.ltb_spec 0 batch_size) as [?|_]; [lia|].
    assert (Hcount : Z.to_nat ((0 - len cleaned - batch_size - 1) / - batch_size) = 0%nat).
    { assert ((0 - len cleaned - batch_size - 1) / - batch_size < 1); [|lia].
      apply Z.div_lt_upper_bound; unfold len; lia. }
    rewrite Hcount. cbn [seq map for_each sret].
    cbn [success errors set_success extend_errors set_records_inserted
         set_records_processed set_quality_issues records_processed
         records_inserted quality_issues file_path app andb Z.ltb].
    log_returns. eexists. split; [reflexivity|].
    by rewrite Hbatches, Hdb.
Qed.

(** X28: on a file that reads, validates and cleans, the result tells what
    [insert_data_batch] did: success is true exactly when it reported no
    error and the quality validation passed, the records processed are the
    rows of the cleaned frame, the records inserted its count.  The
    processing log gets one row, SUCCESS on success, otherwise PARTIAL when
    something was inserted and FAILED when nothing was, whose record count
    is the number inserted and whose message joins the errors. *)
Theorem ingest_csv_file_reports_insertion
    (path : string) (batch_size : Z) (st st3 : istate)
    (df cleaned : DataFrame) (quality_ok : bool) (issues : list Issue)
    (n : Z) (errs : list string) :
  pd_read_csv path = Ok df ->
  (validate_structure df).1 = true ->
  clean_frame df = Ok cleaned ->
  validate_quality cleaned = (quality_ok, issues) ->
  insert_rows cleaned batch_size (clean df (read_file path st).2).2
  = (Ok (n, errs), st3) ->
  let ok := match errs with [] => true | _ :: _ => false end && quality_ok in
  exists st' : istate,
    ingest path batch_size st
    = (Ok (mkResult ok (len cleaned) n errs issues path), st')
    /\ batches st' = batches st3
    /\ db st'
       = (execute_command log_query
            [SqlStr ("CSV Ingestion: " +:+ path_name path);
             SqlStr (if ok then "SUCCESS"
                     else if Z.ltb 0 n then "PARTIAL" else "FAILED");
             SqlInt n;
             match errs with
             | [] => SqlNull
             | _ :: _ => SqlStr (String.concat "; " errs)
             end]
            (db st3)).2.
Proof.
  intros Hread Hvalid Hclean Hquality Hinsert ok.
  rewrite read_csv_file_run, Hread in Hinsert. cbn [snd] in Hinsert.
  rewrite clean_data_run, Hclean in Hinsert. cbn [snd] in Hinsert.
  ingest_steps. rewrite read_csv_file_run, Hread. cbv beta iota zeta.
  destruct (validate_structure df) as [valid structure_issues].
  cbn in Hvalid. subst valid. cbn [negb]. cbv beta iota zeta.
  rewrite clean_data_run, Hclean. cbv beta iota zeta.
  rewrite Hquality. cbv beta iota zeta.
  rewrite Hinsert. cbv beta iota zeta.
  cbn [success errors set_success extend_errors set_records_inserted
       set_records_processed set_quality_issues records_processed
       records_inserted quality_issues file_path app].
  fold ok.
  log_returns. eexists. split; [reflexivity|].
  rewrite Hdb. cbn [db batches] in *. split; [done|].
  by destruct errs.
Qed.

End IngestFacts.

(** *** At three pieces *)

Import ToyIngestion.

Lemma insert_data_batch_without_batches_witness :
  insert_rows pieces (-2) st0
  = (Ok (0, []),
     mkIState (0, 0) [mkLog INFO "Inserting 3 records in batches of -2"] []).
Proof.
  apply (insert_data_batch_without_batches isna executemany commit rollback
           pieces (-2) st0).
  lia.
Defined.

Lemma insert_data_batch_hands_every_row_witness :
  exists sent : list (list (@tuple Cell)),
    batches (insert_rows pieces 2 st0).2 = (batches st0 ++ sent)%list
    /\ concat sent = omap (batch_row isna) (rows pieces)
    /\ Forall (fun batch => batch <> [] /\ Z.of_nat (length batch) <= 2) sent
    /\ 0 <= 2 <= Z.of_nat (length (omap (batch_row isna) (rows pieces)))
    /\ (length (@nil string) <= length sent)%nat
    /\ (@nil string = [] -> 2 = Z.of_nat (length (omap (batch_row isna) (rows pieces)))).
Proof.
  apply (insert_data_batch_hands_every_row isna executemany commit rollback
           pieces 2 2 [] st0 (insert_rows pieces 2 st0).2).
  - lia.
  - vm_compute. reflexivity.
Defined.

Lemma insert_data_batch_counts_rows_with_coordinates_witness :
  exists st' : @istate Cell DB,
    insert_rows pieces 2 st0
    = (Ok (Z.of_nat (length (omap (batch_row isna) (rows pieces))), []), st').
Proof.
  apply (insert_data_batch_counts_rows_with_coordinates isna executemany commit
           rollback pieces 2 st0).
  - lia.
  - intros query data d. reflexivity.
  - intros d. reflexivity.
Defined.

Lemma ingest_csv_file_early_failures_witness :
  (exists st' : @istate Cell DB,
      ingest "nope.csv" 1000 st0
      = (Ok (mkResult false 0 0
               ["Ingestion failed: No such file or directory: nope.csv"] []
               "nope.csv"), st')
      /\ db st' = (0, 1))
  /\ ingest "headless.csv" 1000 st0
     = (Ok (mkResult false 0 0
              ["Missing required columns: ['entity', 'sub_entity', 'description', 'source_url', 'latitude', 'longitude']"]
              [] "headless.csv"),
        mkIState (0, 0)
          [mkLog INFO "Reading CSV file: headless.csv";
           mkLog INFO "Read 1 rows from CSV file"] []).
Proof.
  split.
  - destruct (proj1 (ingest_csv_file_early_failures pd_read_csv to_numeric
                       count_outside clean_frame missing_count zero_coords
                       duplicate_names source_urls below_tenth isna path_name
                       executemany commit rollback execute_command
                       "nope.csv" 1000 st0)
                (Exn "FileNotFoundError" "No such file or directory: nope.csv")
                eq_refl)
      as (st' & Hrun & _ & Hdb).
    exists st'. split; [exact Hrun|exact Hdb].
  - exact (proj2 (ingest_csv_file_early_failures pd_read_csv to_numeric
                    count_outside clean_frame missing_count zero_coords
                    duplicate_names source_urls below_tenth isna path_name
                    executemany commit rollback execute_command
                    "headless.csv" 1000 st0)
             headless _ eq_refl eq_refl).
Defined.

Lemma ingest_csv_file_batch_size_unchecked_witness :
  exists st' : @istate Cell DB,
    ingest "complete.csv" (-1) st0
    = (Ok (mkResult true 2 0 [] [] "complete.csv"), st')
    /\ batches st' = []
    /\ db st' = (0, 1).
Proof.
  apply (ingest_csv_file_batch_size_unchecked pd_read_csv to_numeric
           count_outside clean_frame missing_count zero_coords
           duplicate_names source_urls below_tenth isna path_name
           executemany commit rollback execute_command
           "complete.csv" (-1) st0 complete complete []).
  - reflexivity.
  - vm_compute. reflexivity.
  - reflexivity.
  - vm_compute. reflexivity.
  - lia.
Defined.

Lemma ingest_csv_file_reports_insertion_witness :
  exists st' : @istate Cell DB,
    ingest "pieces.csv" 2 st0
    = (Ok (mkResult false 3 2 []
             [mkIssue "missing_values" (Some "latitude") 1 "ERROR"] "pieces.csv"), st')
    /\ batches st' = batches (insert_rows pieces 2 st0).2
    /\ db st' = (2, 1).
Proof.
  apply (ingest_csv_file_reports_insertion pd_read_csv to_numeric
           count_outside clean_frame missing_count zero_coords
           duplicate_names source_urls below_tenth isna path_name
           executemany commit rollback execute_command
           "pieces.csv" 2 st0
           (insert_data_batch isna executemany commit rollback pieces 2
              (clean_data clean_frame pieces
                 (read_csv_file pd_read_csv "pieces.csv" st0).2).2).2
           pieces pieces false
           [mkIssue "missing_values" (Some "latitude") 1 "ERROR"] 2 []).
  - reflexivity.
  - vm_compute. reflexivity.
  - reflexivity.
  - vm_compute. reflexivity.
  - vm_compute. reflexivity.
Defined.

End IngestionFacts.


(** ** The further properties of the dispatcher at the small instance *)

Module ToyDispatchFacts.

Import Toy.

Lemma handle_request_rejection_is_silent_witness :
  (handle_request server unknown_request st0).2 = st0.
Proof.
  apply (handle_request_rejection_is_silent validate_a2a_message
           validate_business_rules server unknown_request st0
           (handle_request server unknown_request st0).2
           (mkError (-32601) "Method not found"
              (PyStr "Method 'UNKNOWN' not found") (IdInt 2))).
  - reflexivity.
  - left. reflexivity.
Defined.

(** PING goes to another handler; UNKNOWN is answered as before. *)
Lemma register_method_dispatch_witness :
  exists self' : @A2AServer World A2AMessage,
    register_method server "PING" boom st0
    = (Ok self', logged st0 INFO "Registered method: PING")
    /\ handle_request self' unknown_request st0
       = handle_request server unknown_request st0
    /\ handle_request self' ping_request st0
       = handle_request (set_methods blank {["PING" := boom]}) ping_request st0.
Proof.
  destruct (register_method_dispatch validate_a2a_message validate_business_rules
              server "PING" boom st0)
    as (self' & Hrun & Hother & _ & Hsame & _).
  exists self'. split; [exact Hrun|]. split.
  - apply Hother. discriminate.
  - apply Hsame. reflexivity.
Defined.

Lemma fresh_server_knows_no_method_witness :
  handle_request
    (mkServer None None
       [("POST", "/jsonrpc", "_handle_jsonrpc"); ("GET", "/health", "_handle_health")]
       ∅) ping_request st0
  = (Ok (Error (mkError (-32601) "Method not found"
                  (PyStr "Method 'PING' not found") (IdInt 1))), st0).
Proof.
  exact (proj1 (fresh_server_knows_no_method validate_a2a_message
                  validate_business_rules py_int ∅ None None
                  (mkServer None None
                     [("POST", "/jsonrpc", "_handle_jsonrpc");
                      ("GET", "/health", "_handle_health")] ∅)
                  eq_refl)
           ping_request st0).
Defined.

Lemma handle_jsonrpc_envelope_error_witness :
  handle_jsonrpc server (mkHttpRequest (Ok "garbage")) st0
  = (Ok (Some (json_http (error_dict
                 (mkError (-32600) "Invalid Request" PyNone IdNone)))),
     logged st0 DEBUG "Received raw message: garbage").
Proof.
  apply (handle_jsonrpc_envelope_error validate_jsonrpc_message
           validate_a2a_message validate_business_rules server
           (mkHttpRequest (Ok "garbage")) "garbage"
           (mkError (-32600) "Invalid Request" PyNone IdNone) st0);
    reflexivity.
Defined.

Lemma handle_jsonrpc_unserializable_result_witness :
  exists e : exn,
    json_dumps (success_dict (mkSuccess (PyObject "set") (IdInt 3))) = Raise e
    /\ exn_class e = "TypeError"
    /\ handle_jsonrpc server (mkHttpRequest (Ok "set 3")) st0
       = (Ok (Some (json_http (error_dict
                      (mkError (-32603) "Internal error" (PyStr (exn_str e)) IdNone)))),
          logged (called (logged st0 DEBUG "Received raw message: set 3")
                    "SET" (PyDict []) 1%nat)
            ERROR ("Error handling request: " +:+ exn_str e)).
Proof.
  apply (handle_jsonrpc_unserializable_result validate_jsonrpc_message
           validate_a2a_message validate_business_rules server
           (mkHttpRequest (Ok "set 3")) "set 3"
           (mkRequest "SET" (PyDict []) (IdInt 3)) st0 as_set (PyDict [])
           (PyObject "set") 1%nat);
    reflexivity.
Defined.

End ToyDispatchFacts.
